(** * zsh-llm-debugger: run orchestration, tool dispatch and stream sink

    A shallow embedding of [llm_debugger.py] (the OpenAI assistants adapter,
    event driven) and [ollama_debugger.py] (the Ollama adapter, two chat
    calls), with the properties of the dispatcher, of the tool-output batch,
    of the FIFO sink and of the exit status stated and settled on it. *)

From Stdlib Require Import List String Ascii ZArith Bool Lia DecimalString.
Import ListNotations.
Open Scope string_scope.

Set Implicit Arguments.
Set Warnings "-register-all".

(* ===================================================================== *)
(** * Python values                                                       *)
(* ===================================================================== *)

(** The character [chr 10] and the double quote, which the source writes as
    escapes inside its literals. *)
Definition nl : string := String (ascii_of_nat 10) EmptyString.
Definition dq : string := String (ascii_of_nat 34) EmptyString.

(** Values as [json.loads] builds them and as the descriptors are written:
    [None], booleans, integers, [str], [list] and [dict].  A [dict] is kept
    as its items in insertion order. *)
Inductive json : Type :=
| JNull
| JBool (b : bool)
| JNum (z : Z)
| JStr (s : string)
| JArr (items : list json)
| JObj (fields : list (string * json)).

(** [d.get(key)] on the items of a dict. *)
Fixpoint lookup {V : Type} (key : string) (fields : list (string * V)) : option V :=
  match fields with
  | [] => None
  | (k, v) :: rest => if String.eqb key k then Some v else lookup key rest
  end.

(** [key in d]. *)
Definition contains {V : Type} (key : string) (fields : list (string * V)) : bool :=
  match lookup key fields with Some _ => true | None => false end.

(** Python truth value, as [if not file_path] and [shlex.quote] test it. *)
Definition truthy (v : json) : bool :=
  match v with
  | JNull => false
  | JBool b => b
  | JNum z => negb (Z.eqb z 0)
  | JStr s => negb (String.eqb s "")
  | JArr items => match items with [] => false | _ => true end
  | JObj fields => match fields with [] => false | _ => true end
  end.

(** Exceptions the modelled code can meet.  [ApiError] stands for whatever
    the engine client raises when the conversation cannot go on. *)
Inductive exn : Type :=
| JSONDecodeError
| AttributeError (what : string)
| TypeError (what : string)
| KeyError (key : string)
| ValueError (what : string)
| IndexError (what : string)
| ApiError (what : string).

(** [str(e)]. A [KeyError] prints the [repr] of its key. *)
Definition str_exn (e : exn) : string :=
  match e with
  | JSONDecodeError => "Expecting value"
  | AttributeError what => what
  | TypeError what => what
  | KeyError key => "'" ++ key ++ "'"
  | ValueError what => what
  | IndexError what => what
  | ApiError what => what
  end.

(** The result of running a piece of Python: it returns or it raises. *)
Inductive outcome (A : Type) : Type :=
| Returned (a : A)
| Raised (e : exn).
Arguments Returned {A} a.
Arguments Raised {A} e.

Definition returns {A : Type} (o : outcome A) : bool :=
  match o with Returned _ => true | Raised _ => false end.

(* ===================================================================== *)
(** * [str.join] and [shlex.quote]                                        *)
(* ===================================================================== *)

Module Str.

(** [sep.join(parts)] on a list of [str]. *)
Fixpoint join (sep : string) (parts : list string) : string :=
  match parts with
  | [] => ""
  | [p] => p
  | p :: rest => p ++ sep ++ join sep rest
  end.

(** The characters of a [str], each as a [str] of length one. *)
Fixpoint chars (s : string) : list string :=
  match s with
  | EmptyString => []
  | String c rest => String c EmptyString :: chars rest
  end.

(** [type(v).__name__]. *)
Definition type_name (v : json) : string :=
  match v with
  | JNull => "NoneType"
  | JBool _ => "bool"
  | JNum _ => "int"
  | JStr _ => "str"
  | JArr _ => "list"
  | JObj _ => "dict"
  end.

(** [str(i)] for an index. *)
Definition decimal (i : nat) : string :=
  NilEmpty.string_of_uint (Nat.to_uint i).

(** The elements of a list from index [i] on, when every one of them is
    a [str]; the [TypeError] of [join] at the first one that is not. *)
Fixpoint all_str (i : nat) (items : list json) : outcome (list string) :=
  match items with
  | [] => Returned []
  | JStr s :: rest =>
      match all_str (S i) rest with
      | Returned l => Returned (s :: l)
      | Raised e => Raised e
      end
  | v :: _ =>
      Raised (TypeError ("sequence item " ++ decimal i ++ ": expected str instance, "
                         ++ type_name v ++ " found"))
  end.

(** [sep.join(v)] on any value: a list of [str] joins its elements, a
    [str] joins its characters, a [dict] joins its keys; anything else,
    or a list holding a non-[str], raises [TypeError]. *)
Definition join_value (sep : string) (v : json) : outcome string :=
  match v with
  | JArr items =>
      match all_str 0 items with
      | Returned parts => Returned (join sep parts)
      | Raised e => Raised e
      end
  | JStr s => Returned (join sep (chars s))
  | JObj fields => Returned (join sep (map fst fields))
  | _ => Raised (TypeError "can only join an iterable")
  end.

(** [s.replace(old, new)] for a one-character [old]. *)
Fixpoint replace_char (old : ascii) (new : string) (s : string) : string :=
  match s with
  | EmptyString => EmptyString
  | String c rest =>
      if Ascii.eqb c old then new ++ replace_char old new rest
      else String c (replace_char old new rest)
  end.

End Str.

Module Shlex.

Definition between (lo hi c : ascii) : bool :=
  (nat_of_ascii lo <=? nat_of_ascii c)%nat && (nat_of_ascii c <=? nat_of_ascii hi)%nat.

(** The complement of [_find_unsafe]'s class [[^\w@%+=:,./-]] under
    [re.ASCII]. *)
Definition safe_char (c : ascii) : bool :=
  between "a" "z" c || between "A" "Z" c || between "0" "9" c
  || Ascii.eqb c "_" || Ascii.eqb c "@" || Ascii.eqb c "%" || Ascii.eqb c "+"
  || Ascii.eqb c "=" || Ascii.eqb c ":" || Ascii.eqb c "," || Ascii.eqb c "."
  || Ascii.eqb c "/" || Ascii.eqb c "-".

Fixpoint all_safe (s : string) : bool :=
  match s with
  | EmptyString => true
  | String c rest => safe_char c && all_safe rest
  end.

(** What a single quote inside the text is replaced with: close the
    quotes, a double-quoted single quote, open the quotes again. *)
Definition escaped_quote : string := "'" ++ dq ++ "'" ++ dq ++ "'".

(** [shlex.quote] on a [str]. *)
Definition quote_str (s : string) : string :=
  if String.eqb s "" then "''"
  else if all_safe s then s
  else "'" ++ Str.replace_char "'" escaped_quote s ++ "'".

(** [shlex.quote(v)] on any value: [if not s: return "''"] answers for
    every falsy value, then the regular expression search raises
    [TypeError] on a value that is not a [str]. *)
Definition quote (v : json) : outcome string :=
  if negb (truthy v) then Returned "''"
  else match v with
       | JStr s => Returned (quote_str s)
       | _ => Raised (TypeError "expected string or bytes-like object")
       end.

End Shlex.

(* ===================================================================== *)
(** * State and exceptions                                                *)
(* ===================================================================== *)

(** A computation over a state [W] that returns or raises. The state it
    leaves behind is kept in both cases: what was spawned or written before
    an exception stays spawned and written. *)
Definition M (W A : Type) : Type := W -> outcome A * W.

Definition ret {W A : Type} (a : A) : M W A := fun w => (Returned a, w).

Definition raise {W A : Type} (e : exn) : M W A := fun w => (Raised e, w).

Definition bind {W A B : Type} (m : M W A) (k : A -> M W B) : M W B :=
  fun w =>
    match m w with
    | (Returned a, w') => k a w'
    | (Raised e, w') => (Raised e, w')
    end.

(** A pure step that may raise. *)
Definition lift {W A : Type} (o : outcome A) : M W A := fun w => (o, w).

(** [try: body; except Exception: handler]. *)
Definition try_except {W A : Type} (body : M W A) (handler : exn -> M W A) : M W A :=
  fun w =>
    match body w with
    | (Returned a, w') => (Returned a, w')
    | (Raised e, w') => handler e w'
    end.

Declare Scope py_scope.
Delimit Scope py_scope with py.
Notation "x <- m ;; k" := (bind m (fun x => k))
  (at level 61, m at next level, right associativity) : py_scope.
Notation "m ;;; k" := (bind m (fun _ => k))
  (at level 61, right associativity) : py_scope.
Open Scope py_scope.

(** A [for] loop that appends one element per item. *)
Fixpoint for_each {W A B : Type} (body : A -> M W B) (items : list A) : M W (list B) :=
  match items with
  | [] => ret []
  | x :: rest =>
      y <- body x ;;
      ys <- for_each body rest ;;
      ret (y :: ys)
  end.

(* ===================================================================== *)
(** * llm_debugger.py                                                     *)
(* ===================================================================== *)

Module Llm.

(** ** The allowed functions *)

(** [ALLOWED_FUNCTIONS]: the dict literal of the module, name to
    descriptor, in the order it is written. *)
Definition ALLOWED_FUNCTIONS : list (string * json) :=
  [ ("list_directory",
     JObj [ ("name", JStr "list_directory");
            ("description", JStr "List files and directories in a specified path.");
            ("parameters",
             JObj [ ("type", JStr "object");
                    ("properties",
                     JObj [ ("path",
                             JObj [ ("type", JStr "string");
                                    ("description", JStr "The directory path to list.") ]);
                            ("options",
                             JObj [ ("type", JStr "array");
                                    ("items",
                                     JObj [ ("type", JStr "string");
                                            ("enum", JArr [JStr "-la"; JStr "--help"]) ]);
                                    ("description",
                                     JStr "Options to modify the behavior of the ls command.") ]) ]);
                    ("required", JArr [JStr "path"]) ]) ]);
    ("print_working_directory",
     JObj [ ("name", JStr "print_working_directory");
            ("description", JStr "Print the current working directory.");
            ("parameters",
             JObj [ ("type", JStr "object");
                    ("properties", JObj []) ]) ]);
    ("list_processes",
     JObj [ ("name", JStr "list_processes");
            ("description", JStr "List currently running processes.");
            ("parameters",
             JObj [ ("type", JStr "object");
                    ("properties",
                     JObj [ ("options",
                             JObj [ ("type", JStr "array");
                                    ("items",
                                     JObj [ ("type", JStr "string");
                                            ("enum", JArr [JStr "aux"; JStr "--help"]) ]);
                                    ("description",
                                     JStr "Options to modify the behavior of the ps command.") ]) ]) ]) ]);
    ("display_file_contents",
     JObj [ ("name", JStr "display_file_contents");
            ("description", JStr "Display the contents of a specified file.");
            ("parameters",
             JObj [ ("type", JStr "object");
                    ("properties",
                     JObj [ ("file_path",
                             JObj [ ("type", JStr "string");
                                    ("description", JStr "The path to the file to display.") ]) ]);
                    ("required", JArr [JStr "file_path"]) ]) ]) ].

(** The [tools] argument of [client.beta.assistants.create] in
    [create_assistant]: a list literal of its own, written out in the
    call. *)
Definition create_assistant_tools : list json :=
  [ JObj [ ("type", JStr "function");
           ("function",
            JObj [ ("name", JStr "list_directory");
                   ("description", JStr "List files and directories in a specified path.");
                   ("parameters",
                    JObj [ ("type", JStr "object");
                           ("properties",
                            JObj [ ("path",
                                    JObj [ ("type", JStr "string");
                                           ("description", JStr "The directory path to list.") ]);
                                   ("options",
                                    JObj [ ("type", JStr "array");
                                           ("items",
                                            JObj [ ("type", JStr "string");
                                                   ("enum", JArr [JStr "-la"; JStr "--help"]) ]);
                                           ("description",
                                            JStr "Options to modify the behavior of the ls command.") ]) ]);
                           ("required", JArr [JStr "path"]) ]) ]) ];
    JObj [ ("type", JStr "function");
           ("function",
            JObj [ ("name", JStr "print_working_directory");
                   ("description", JStr "Print the current working directory.");
                   ("parameters",
                    JObj [ ("type", JStr "object");
                           ("properties", JObj []) ]) ]) ];
    JObj [ ("type", JStr "function");
           ("function",
            JObj [ ("name", JStr "list_processes");
                   ("description", JStr "List currently running processes.");
                   ("parameters",
                    JObj [ ("type", JStr "object");
                           ("properties",
                            JObj [ ("options",
                                    JObj [ ("type", JStr "array");
                                           ("items",
                                            JObj [ ("type", JStr "string");
                                                   ("enum", JArr [JStr "aux"; JStr "--help"]) ]);
                                           ("description",
                                            JStr "Options to modify the behavior of the ps command.") ]) ]) ]) ]) ];
    JObj [ ("type", JStr "function");
           ("function",
            JObj [ ("name", JStr "display_file_contents");
                   ("description", JStr "Display the contents of a specified file.");
                   ("parameters",
                    JObj [ ("type", JStr "object");
                           ("properties",
                            JObj [ ("file_path",
                                    JObj [ ("type", JStr "string");
                                           ("description", JStr "The path to the file to display.") ]) ]);
                           ("required", JArr [JStr "file_path"]) ]) ]) ] ].

(** ** Requests, results and the world *)

(** The text of [function_call.arguments] is looked at through
    [json.loads] only, so the model carries what [json.loads] makes of it:
    [NotJson] for a text it rejects, [Encodes v] for a text of the value
    [v]. *)
Inductive json_text : Type :=
| NotJson
| Encodes (v : json).

(** [tool_call.function]. Either attribute may be absent: the code reads
    both with [getattr] and a default. *)
Record function_call : Type := {
  name : option string;
  arguments : option json_text
}.

Record tool_call : Type := {
  id : string;
  function : function_call
}.

(** What [handle_function_call] returns: the dict with the key ['error'],
    or the dict with ['stdout'], ['stderr'] and ['exit_status']. *)
Inductive dispatch_result : Type :=
| Error (error : string)
| Output (stdout stderr : string) (exit_status : Z).

(** ['error' in result]. *)
Definition is_error (r : dispatch_result) : bool :=
  match r with Error _ => true | Output _ _ _ => false end.

Record tool_output : Type := {
  tool_call_id : string;
  output : string
}.

(** What [subprocess.run] does with a command line: it returns a
    completed process with what the child printed and its return code,
    or it raises, the child not started or its output not to be
    decoded as text. *)
Inductive proc : Type :=
| Completed (stdout stderr : string) (returncode : Z)
| SpawnFailed (what : string).

(** One [write] on the FIFO: a text delta or the end marker. *)
Inductive frame : Type :=
| Chunk (text : string)
| Sentinel.

(** The text each frame puts on the pipe. *)
Definition wire (f : frame) : string :=
  match f with
  | Chunk text => text
  | Sentinel => nl ++ "EOF" ++ nl
  end.

(** What the pipe sees: an open, a frame that reaches it, a close. *)
Inductive fifo_op : Type :=
| FifoOpen
| FifoWrite (f : frame)
| FifoClose.

(** Everything the program does to the outside, in order of occurrence,
    and what the outside will answer. [spawned] holds the command lines
    handed to [subprocess.run] and to [subprocess.getoutput]. [io_script]
    gives the fate of the next attempts to open the FIFO or to flush to
    it ([true]: it works), and an exhausted script means they all work.
    [open(FIFO_PATH, 'w')] gives a buffered text file, so a handle keeps
    what was written to it until a flush gets it onto the pipe:
    [buffers] holds these frames for each handle that is open, the
    innermost first. *)
Record world : Type := {
  spawned : list string;
  fifo_log : list fifo_op;
  submitted : list (list tool_output);
  io_script : list bool;
  buffers : list (list frame)
}.

Definition initial (script : list bool) : world :=
  {| spawned := []; fifo_log := []; submitted := []; io_script := script;
     buffers := [] |}.

Definition log_spawn (command : string) (w : world) : world :=
  {| spawned := spawned w ++ [command]; fifo_log := fifo_log w;
     submitted := submitted w; io_script := io_script w; buffers := buffers w |}.

Definition log_fifo (op : fifo_op) (w : world) : world :=
  {| spawned := spawned w; fifo_log := fifo_log w ++ [op];
     submitted := submitted w; io_script := io_script w; buffers := buffers w |}.

Definition log_submit (batch : list tool_output) (w : world) : world :=
  {| spawned := spawned w; fifo_log := fifo_log w;
     submitted := submitted w ++ [batch]; io_script := io_script w;
     buffers := buffers w |}.

(** Take the fate of the next FIFO operation off the script. *)
Definition next_io (w : world) : bool * world :=
  match io_script w with
  | [] => (true, w)
  | ok :: rest =>
      (ok, {| spawned := spawned w; fifo_log := fifo_log w;
              submitted := submitted w; io_script := rest;
              buffers := buffers w |})
  end.

Definition set_buffers (bs : list (list frame)) (w : world) : world :=
  {| spawned := spawned w; fifo_log := fifo_log w;
     submitted := submitted w; io_script := io_script w; buffers := bs |}.

(** What the innermost open handle holds back. *)
Definition pending (w : world) : list frame := hd [] (buffers w).

(** The frames of a buffer reach the pipe, in the order they were
    written. *)
Definition deliver_frames (fs : list frame) (w : world) : world :=
  {| spawned := spawned w; fifo_log := fifo_log w ++ map FifoWrite fs;
     submitted := submitted w; io_script := io_script w; buffers := buffers w |}.

(** The frames that have reached the pipe so far. *)
Fixpoint frames (log : list fifo_op) : list frame :=
  match log with
  | [] => []
  | FifoWrite f :: rest => f :: frames rest
  | _ :: rest => frames rest
  end.

(** ** The dispatcher *)

Section Dispatcher.

(** What the shell does with each command line it is given. *)
Variable zsh : string -> proc.

(** [execute_shell_command]: one [subprocess.run] per call, and
    whatever it raises is turned into a result. *)
Definition execute_shell_command (command : string) : M world (string * string * Z) :=
  fun w =>
    match zsh command with
    | Completed stdout stderr returncode =>
        (Returned (stdout, stderr, returncode), log_spawn command w)
    | SpawnFailed what =>
        (Returned ("", what, 1%Z), log_spawn command w)
    end.

(** [json.loads(getattr(function_call, 'arguments', '{}'))]. *)
Definition json_loads (text : option json_text) : outcome json :=
  match text with
  | None => Returned (JObj [])
  | Some (Encodes v) => Returned v
  | Some NotJson => Raised JSONDecodeError
  end.

(** [arguments.get(key, default)]: only a dict has a [get]. *)
Definition dict_get (arguments : json) (key : string) (default : json) : outcome json :=
  match arguments with
  | JObj fields =>
      match lookup key fields with
      | Some v => Returned v
      | None => Returned default
      end
  | v => Raised (AttributeError ("'" ++ Str.type_name v ++ "' object has no attribute 'get'"))
  end.

(** [function_name not in ALLOWED_FUNCTIONS]. *)
Definition allowed (function_name : option string) : bool :=
  match function_name with
  | Some n => contains n ALLOWED_FUNCTIONS
  | None => false
  end.

(** [function_name == literal]. *)
Definition is_name (function_name : option string) (literal : string) : bool :=
  match function_name with
  | Some n => String.eqb n literal
  | None => false
  end.

(** How an f-string prints the name. *)
Definition show_name (function_name : option string) : string :=
  match function_name with
  | Some n => n
  | None => "None"
  end.

(** The tail of [handle_function_call]: run the command and wrap what
    it gave. *)
Definition run_command (command : string) : M world dispatch_result :=
  r <- execute_shell_command command ;;
  match r with
  | (stdout, stderr, exit_status) => ret (Output stdout stderr exit_status)
  end.

Definition handle_function_call (function_call : function_call) : M world dispatch_result :=
  let function_name := name function_call in
  arguments <- lift (json_loads (arguments function_call)) ;;
  if negb (allowed function_name) then
    ret (Error ("Function '" ++ show_name function_name ++ "' is not allowed."))
  else if is_name function_name "list_directory" then
    path <- lift (dict_get arguments "path" (JStr ".")) ;;
    opts <- lift (dict_get arguments "options" (JArr [])) ;;
    options <- lift (Str.join_value " " opts) ;;
    quoted <- lift (Shlex.quote path) ;;
    run_command ("ls " ++ options ++ " " ++ quoted)
  else if is_name function_name "print_working_directory" then
    run_command "pwd"
  else if is_name function_name "list_processes" then
    opts <- lift (dict_get arguments "options" (JArr [])) ;;
    options <- lift (Str.join_value " " opts) ;;
    run_command ("ps " ++ options)
  else if is_name function_name "display_file_contents" then
    file_path <- lift (dict_get arguments "file_path" JNull) ;;
    if negb (truthy file_path) then
      ret (Error "Missing 'file_path' argument.")
    else
      quoted <- lift (Shlex.quote file_path) ;;
      run_command ("cat " ++ quoted)
  else
    ret (Error ("Function '" ++ show_name function_name ++ "' is not implemented.")).

(** The text sent back for one result, as both loops over the tool
    calls compute it. *)
Definition tool_output_text (result : dispatch_result) : string :=
  match result with
  | Error error => "Error: " ++ error
  | Output stdout stderr _ => stdout ++ stderr
  end.

(** The body of the [for] loop of [handle_requires_action] and of
    [process_run]. *)
Definition answer_tool_call (tool : tool_call) : M world tool_output :=
  result <- handle_function_call (function tool) ;;
  ret {| tool_call_id := id tool; output := tool_output_text result |}.

End Dispatcher.

(** ** The event handlers and the FIFO *)

(** What the client library delivers to a handler while a stream is
    consumed by [until_done]: [on_event] with the event (its name, and for
    a [requires_action] its tool calls), [on_text_created] and
    [on_text_delta] with the text, or an exception of the client itself.
    [continuation] is what the engine streams back to the handler made by
    [submit_tool_outputs] once the outputs of that event are in. *)
Inductive callback : Type :=
| OnEvent (event : string) (tool_calls : list tool_call) (continuation : list callback)
| OnTextCreated (value : string)
| OnTextDelta (value : string)
| StreamError (what : string).

(** The fields of a [StreamingEventHandler]: the text gathered so far and
    whether [self.fifo] was set by [__init__]. *)
Record handler : Type := {
  suggestion : string;
  fifo : bool
}.

Section Handlers.

Variable zsh : string -> proc.

(** [StreamingEventHandler.__init__]: a failed [open] is logged and
    leaves the handler without its [fifo]; an [open] that works gives a
    handle with an empty buffer. *)
Definition new_handler : M world handler :=
  fun w =>
    let (ok, w1) := next_io w in
    if ok then
      (Returned {| suggestion := ""; fifo := true |},
       set_buffers ([] :: buffers w1) (log_fifo FifoOpen w1))
    else (Returned {| suggestion := ""; fifo := false |}, w1).

(** [try: self.fifo.write(text); self.fifo.flush() except Exception]:
    the [write] puts the text in the buffer of the handle and the
    [flush] tries to get the whole buffer onto the pipe. When the flush
    works, what earlier flushes left behind goes out first; when it
    fails, the exception is logged and the buffer keeps the text.
    Nothing is raised. Without a [fifo] the attribute error is caught
    before any write. *)
Definition fifo_write (h : handler) (f : frame) : M world unit :=
  fun w =>
    if fifo h then
      let (ok, w1) := next_io w in
      let held := (pending w1 ++ [f])%list in
      if ok then
        (Returned tt, set_buffers ([] :: tl (buffers w1)) (deliver_frames held w1))
      else (Returned tt, set_buffers (held :: tl (buffers w1)) w1)
    else (Returned tt, w).

(** [StreamingEventHandler.__del__]: [close], which flushes what the
    buffer still holds and closes the handle whether that flush works
    or not; what a failed flush leaves is lost. An empty buffer is not
    flushed. Without a [fifo] the attribute error is caught. *)
Definition del (h : handler) : M world unit :=
  fun w =>
    if fifo h then
      match pending w with
      | [] => (Returned tt, set_buffers (tl (buffers w)) (log_fifo FifoClose w))
      | held =>
          let (ok, w1) := next_io w in
          if ok then
            (Returned tt,
             set_buffers (tl (buffers w1)) (log_fifo FifoClose (deliver_frames held w1)))
          else (Returned tt, set_buffers (tl (buffers w1)) (log_fifo FifoClose w1))
      end
    else (Returned tt, w).

(** A handler is used for [body] and then dropped. It is finalized
    whether [body] returns or raises: in the second case [__del__] runs
    while the exception ends the process. *)
Definition finalized {A : Type} (h : handler) (body : M world A) : M world A :=
  fun w =>
    let (o, w1) := body w in
    let (_, w2) := del h w1 in
    (o, w2).

Definition on_text_created (value : string) (h : handler) : M world handler :=
  ret {| suggestion := suggestion h ++ value; fifo := fifo h |}.

Definition on_text_delta (value : string) (h : handler) : M world handler :=
  let h' := {| suggestion := suggestion h ++ value; fifo := fifo h |} in
  fifo_write h' (Chunk value) ;;;
  ret h'.

(** [StreamingEventHandler.handle_final_message]. *)
Definition handle_final_message (h : handler) : M world handler :=
  fifo_write h Sentinel ;;;
  ret h.

(** [StreamingEventHandler.handle_general_event] only logs. *)
Definition handle_general_event (h : handler) : M world handler :=
  ret h.

Definition submit (tool_outputs : list tool_output) : M world unit :=
  fun w => (Returned tt, log_submit tool_outputs w).

(** The methods that start a nested stream, over the function
    [until_done] that consumes it. *)
Section Nested.

Variable until_done : list callback -> handler -> M world handler.

(** [EventHandler.submit_tool_outputs]: the arguments of the call are
    evaluated first, so the new handler opens the FIFO before the
    outputs go out; then the continuation is consumed and the handler
    dropped. *)
Definition submit_tool_outputs (tool_outputs : list tool_output)
           (continuation : list callback) : M world unit :=
  inner <- new_handler ;;
  finalized inner
    (submit tool_outputs ;;;
     until_done continuation inner ;;;
     ret tt).

(** [EventHandler.handle_requires_action]. *)
Definition handle_requires_action (tool_calls : list tool_call)
           (continuation : list callback) : M world unit :=
  tool_outputs <- for_each (answer_tool_call zsh) tool_calls ;;
  submit_tool_outputs tool_outputs continuation.

(** [EventHandler.on_event]: the second [if] carries the [else], so a
    [requires_action] event also reaches [handle_general_event]. *)
Definition on_event (event : string) (tool_calls : list tool_call)
           (continuation : list callback) (h : handler) : M world handler :=
  (if String.eqb event "thread.run.requires_action"
   then handle_requires_action tool_calls continuation
   else ret tt) ;;;
  if String.eqb event "thread.message.completed"
  then handle_final_message h
  else handle_general_event h.

End Nested.

(** One callback on a handler. *)
Fixpoint deliver (cb : callback) (h : handler) {struct cb} : M world handler :=
  match cb with
  | OnEvent event tool_calls continuation =>
      on_event
        (fix consume (cbs : list callback) (h' : handler) : M world handler :=
           match cbs with
           | [] => ret h'
           | cb' :: rest => h'' <- deliver cb' h' ;; consume rest h''
           end)
        event tool_calls continuation h
  | OnTextCreated value => on_text_created value h
  | OnTextDelta value => on_text_delta value h
  | StreamError what => raise (ApiError what)
  end.

(** [stream.until_done()]: every callback in turn, until one raises. *)
Fixpoint until_done (cbs : list callback) (h : handler) : M world handler :=
  match cbs with
  | [] => ret h
  | cb :: rest => h' <- deliver cb h ;; until_done rest h'
  end.

(** A whole stream on a handler of its own, from [__init__] to
    [__del__]: the [with ... as stream: stream.until_done()] of
    [initiate_run] and of [submit_tool_outputs]. *)
Definition stream (cbs : list callback) : M world handler :=
  h <- new_handler ;;
  finalized h (until_done cbs h).

End Handlers.

(** ** The poll variant, the run and [main] *)

(** The fields of a retrieved run that [process_run] reads, and what the
    engine streams once its outputs are submitted. *)
Record run : Type := {
  status : string;
  required_action_type : string;
  run_tool_calls : list tool_call;
  run_continuation : list callback
}.

(** What one invocation meets: the environment variable with the key, the
    command line, the assistant id of the configuration file, what the
    engine answers to the creation of the assistant and of the thread,
    and the stream of the run; and for [gather_error_details] what
    [os.getcwd()] gives, what [subprocess.getoutput] gives for a command
    line (its output, or an exception such as that of an output not to be
    decoded), whether [/etc/os-release] exists, what
    [shlex.split(command)[0]] gives (the first word of the command, or
    the exception of a command with an open quote or without a word),
    and whether [shutil.which] finds that word. *)
Record session : Type := {
  api_key : string;
  argv : list string;
  config_assistant_id : option string;
  assistants_create : outcome string;
  getcwd : outcome string;
  getoutput : string -> outcome string;
  os_release_exists : bool;
  first_word : outcome string;
  which : bool;
  threads_create : outcome string;
  run_stream : list callback
}.

Section Main.

Variable zsh : string -> proc.

(** [process_run]; the module-level [submit_tool_outputs] it calls is
    the method of the same name word for word. *)
Definition process_run (r : run) : M world unit :=
  if String.eqb (status r) "requires_action"
     && String.eqb (required_action_type r) "submit_tool_outputs"
  then
    tool_outputs <- for_each (answer_tool_call zsh) (run_tool_calls r) ;;
    submit_tool_outputs (until_done zsh) tool_outputs (run_continuation r)
  else ret tt.

(** [initiate_run]: [None] when it returns, [Some code] when its
    [except Exception] ends the process with [sys.exit(code)]. *)
Definition initiate_run (events : list callback) : world -> option Z * world :=
  fun w =>
    match stream zsh events w with
    | (Returned _, w') => (None, w')
    | (Raised _, w') => (Some 1%Z, w')
    end.

(** [create_assistant_if_not_exists] with [create_assistant] inside:
    [None] when an id is at hand, [Some 1] for the [sys.exit(1)] of
    [create_assistant]. *)
Definition create_assistant_if_not_exists (s : session) : option Z :=
  match config_assistant_id s with
  | Some assistant_id =>
      if negb (String.eqb assistant_id "") then None
      else match assistants_create s with Returned _ => None | Raised _ => Some 1%Z end
  | None =>
      match assistants_create s with Returned _ => None | Raised _ => Some 1%Z end
  end.

(** [create_thread]: [Some 1] for its [sys.exit(1)]. *)
Definition create_thread (s : session) : option Z :=
  match threads_create s with Returned _ => None | Raised _ => Some 1%Z end.

(** [' '.join(sys.argv[1:])]. *)
Definition user_command (s : session) : string :=
  Str.join " " (tl (argv s)).

(** [subprocess.getoutput(command)]: the command line goes to a shell,
    and what comes back is its output or an exception. *)
Definition subprocess_getoutput (s : session) (command : string) : M world string :=
  fun w => (getoutput s command, log_spawn command w).

(** [gather_error_details]: the values of the dict are computed in the
    order they are written. The working directory is read, [uname -a]
    is run, [cat /etc/os-release] is run when that file exists, and
    when [shutil.which] finds the first word of the command, [which]
    and [--version] are run on it. The word is split off before
    [shutil.which] is asked, so a command that [shlex.split] rejects
    raises here, after the commands before it have run. *)
Definition gather_error_details (s : session) : M world unit :=
  lift (getcwd s) ;;;
  subprocess_getoutput s "uname -a" ;;;
  (if os_release_exists s
   then subprocess_getoutput s "cat /etc/os-release" ;;; ret tt
   else ret tt) ;;;
  word <- lift (first_word s) ;;
  (if which s
   then subprocess_getoutput s ("which " ++ word) ;;; ret tt
   else ret tt) ;;;
  (if which s
   then subprocess_getoutput s (word ++ " --version") ;;; ret tt
   else ret tt).

(** [main]: the argument of the [sys.exit] that ends it, or 1 when an
    exception leaves it uncaught. *)
Definition main (s : session) : world -> Z * world :=
  fun w =>
    if (List.length (argv s) <? 2)%nat then (1%Z, w)
    else
      match execute_shell_command zsh (user_command s) w with
      | (Raised _, w1) => (1%Z, w1)
      | (Returned (_, _, exit_status), w1) =>
          if negb (Z.eqb exit_status 0) then
            match create_assistant_if_not_exists s with
            | Some code => (code, w1)
            | None =>
                match gather_error_details s w1 with
                | (Raised _, w2) => (1%Z, w2)
                | (Returned _, w2) =>
                    match create_thread s with
                    | Some code => (code, w2)
                    | None =>
                        match initiate_run (run_stream s) w2 with
                        | (Some code, w3) => (code, w3)
                        | (None, w3) => (exit_status, w3)
                        end
                    end
                end
            end
          else (exit_status, w1)
      end.

(** The status a process ends with when [sys.exit] is given an integer:
    the system keeps the low eight bits, so a command that a signal
    killed, which [subprocess.run] reports with a negative return code,
    is passed on as a status above 128. *)
Definition process_status (code : Z) : Z := (code mod 256)%Z.

(** The module and then [main], and the status the process ends with:
    without the key the module ends the process with [sys.exit(1)]
    before [main] is reached. *)
Definition program (s : session) : world -> Z * world :=
  fun w =>
    if String.eqb (api_key s) "" then (1%Z, w)
    else
      let (code, w') := main s w in
      (process_status code, w').

End Main.

End Llm.

(* ===================================================================== *)
(** * ollama_debugger.py                                                  *)
(* ===================================================================== *)

Module Ollama.

(** ** The two tables *)

(** [ALLOWED_FUNCTIONS], the dict literal of this module. *)
Definition ALLOWED_FUNCTIONS : list (string * json) :=
  [ ("list_directory", JObj [("name", JStr "list_directory"); ("description", JStr "List files and directories in a specified path."); ("parameters", JObj [("type", JStr "object"); ("properties", JObj [("path", JObj [("type", JStr "string"); ("description", JStr "The directory path to list.")]); ("options", JObj [("type", JStr "array"); ("items", JObj [("type", JStr "string"); ("enum", JArr [JStr "-la"; JStr "--help"])]); ("description", JStr "Options to modify the behavior of the ls command.")])]); ("required", JArr [JStr "path"])])]);
    ("print_working_directory", JObj [("name", JStr "print_working_directory"); ("description", JStr "Print the current working directory."); ("parameters", JObj [("type", JStr "object"); ("properties", JObj [])])]);
    ("list_processes", JObj [("name", JStr "list_processes"); ("description", JStr "List currently running processes."); ("parameters", JObj [("type", JStr "object"); ("properties", JObj [("options", JObj [("type", JStr "array"); ("items", JObj [("type", JStr "string"); ("enum", JArr [JStr "aux"; JStr "--help"])]); ("description", JStr "Options to modify the behavior of the ps command.")])])])]);
    ("display_file_contents", JObj [("name", JStr "display_file_contents"); ("description", JStr "Display the contents of a specified file."); ("parameters", JObj [("type", JStr "object"); ("properties", JObj [("file_path", JObj [("type", JStr "string"); ("description", JStr "The path to the file to display.")])]); ("required", JArr [JStr "file_path"])])]) ].

(** The functions of the module that [AVAILABLE_FUNCTIONS] points to. *)
Inductive tool : Type :=
| list_directory_fn
| print_working_directory_fn
| list_processes_fn
| display_file_contents_fn.

(** [AVAILABLE_FUNCTIONS]: name to function. *)
Definition AVAILABLE_FUNCTIONS : list (string * tool) :=
  [ ("list_directory", list_directory_fn);
    ("print_working_directory", print_working_directory_fn);
    ("list_processes", list_processes_fn);
    ("display_file_contents", display_file_contents_fn) ].

(** [tools=list(ALLOWED_FUNCTIONS.values())] of the first chat call. *)
Definition tools : list json := map snd ALLOWED_FUNCTIONS.

(** ** Messages *)

(** One entry of [tool_calls] as the client library types it: a name and
    a mapping of arguments. *)
Record tool_request : Type := {
  function_name : string;
  function_arguments : list (string * json)
}.

(** [response['message']]. *)
Record reply : Type := {
  content : string;
  tool_calls : option (list tool_request)
}.

(** The conversation holds dicts written by the program and the message
    objects that came from the model, appended as they are. *)
Inductive entry : Type :=
| Dict (fields : list (string * json))
| Message (m : reply).

Definition system_prompt : entry :=
  Dict [("role", JStr "system"); ("content", JStr "You are a shell debugger. Analyze the following failed shell command and provide a corrected command. Only respond with the corrected shell command, or by using a tool provided. You may not ask clarifying questions. You are expected to use the provided tools to answer the question.")].

Definition few_shot_examples : list entry :=
  map Dict
  [ [("role", JStr "user"); ("content", JStr ("```sh" ++ nl ++ "cd /nonexistent_dir" ++ nl ++ "```" ++ nl ++ "Error Output:" ++ nl ++ "```" ++ nl ++ "bash: cd: /nonexistent_dir: No such file or directory" ++ nl ++ "```"))];
    [("role", JStr "assistant"); ("content", JStr ""); ("tool_calls", JArr [JObj [("function", JObj [("name", JStr "list_directory"); ("arguments", JObj [("path", JStr "/"); ("options", JArr [JStr "-la"])])])]])];
    [("role", JStr "tool"); ("content", JStr ("drwxr-xr-x  5 root root  4096 Apr 10 10:00 existing_dir" ++ nl ++ "..."))];
    [("role", JStr "assistant"); ("content", JStr "cd /existing_dir")];
    [("role", JStr "user"); ("content", JStr ("```sh" ++ nl ++ "grep 'pattern'" ++ nl ++ "```" ++ nl ++ "Error Output:" ++ nl ++ "```" ++ nl ++ "grep: missing file operand" ++ nl ++ "Try 'grep --help' for more information." ++ nl ++ "```"))];
    [("role", JStr "assistant"); ("content", JStr ""); ("tool_calls", JArr [JObj [("function", JObj [("name", JStr "list_directory"); ("arguments", JObj [("path", JStr "."); ("options", JArr [JStr "-la"])])])]])];
    [("role", JStr "tool"); ("content", JStr ("file1.txt" ++ nl ++ "file2.log" ++ nl ++ "script.sh" ++ nl))];
    [("role", JStr "assistant"); ("content", JStr "grep 'pattern' file1.txt")];
    [("role", JStr "user"); ("content", JStr ("```sh" ++ nl ++ "cat /etc/hostsh" ++ nl ++ "```" ++ nl ++ "Error Output:" ++ nl ++ "```" ++ nl ++ "bash: cat: /etc/hostsh: No such file or directory" ++ nl ++ "```"))];
    [("role", JStr "assistant"); ("content", JStr ""); ("tool_calls", JArr [JObj [("function", JObj [("name", JStr "list_directory"); ("arguments", JObj [("path", JStr "/etc"); ("options", JArr [])])])]])];
    [("role", JStr "tool"); ("content", JStr ("hosts" ++ nl ++ "hostname" ++ nl ++ "resolv.conf" ++ nl))];
    [("role", JStr "assistant"); ("content", JStr "cat /etc/hosts")];
    [("role", JStr "user"); ("content", JStr ("```sh" ++ nl ++ "python script.py" ++ nl ++ "```" ++ nl ++ "Error Output:" ++ nl ++ "```" ++ nl ++ "python: command not found" ++ nl ++ "```"))];
    [("role", JStr "assistant"); ("content", JStr ""); ("tool_calls", JArr [JObj [("function", JObj [("name", JStr "list_processes"); ("arguments", JObj [("options", JArr [JStr "aux"])])])]])];
    [("role", JStr "tool"); ("content", JStr ("USER       PID %CPU %MEM    VSZ   RSS TTY      STAT START   TIME COMMAND" ++ nl ++ "..."))];
    [("role", JStr "assistant"); ("content", JStr "python3 script.py")];
    [("role", JStr "user"); ("content", JStr ("```sh" ++ nl ++ "mkdir new_folder" ++ nl ++ "```" ++ nl ++ "Error Output:" ++ nl ++ "```" ++ nl ++ "mkdir: cannot create directory 'new_folder': Permission denied" ++ nl ++ "```"))];
    [("role", JStr "assistant"); ("content", JStr ""); ("tool_calls", JArr [JObj [("function", JObj [("name", JStr "print_working_directory"); ("arguments", JObj [])])]])];
    [("role", JStr "tool"); ("content", JStr "/home/user/projects")];
    [("role", JStr "assistant"); ("content", JStr "sudo mkdir new_folder")];
    [("role", JStr "user"); ("content", JStr ("```sh" ++ nl ++ "rm *.txt" ++ nl ++ "```" ++ nl ++ "Error Output:" ++ nl ++ "```" ++ nl ++ "rm: missing operand after '*.txt'" ++ nl ++ "Try 'rm --help' for more information." ++ nl ++ "```"))];
    [("role", JStr "assistant"); ("content", JStr ""); ("tool_calls", JArr [JObj [("function", JObj [("name", JStr "list_directory"); ("arguments", JObj [("path", JStr "."); ("options", JArr [JStr "-la"])])])]])];
    [("role", JStr "tool"); ("content", JStr ("file1.txt" ++ nl ++ "file2.txt" ++ nl ++ "README.md" ++ nl))];
    [("role", JStr "assistant"); ("content", JStr "rm *.txt")] ].

(** The two texts that [run] reads from [error_details], once they are
    read; the reading itself is [getitem], in [run_details]. *)
Record error_details : Type := {
  command : string;
  stderr : string
}.

Definition user_message (details : error_details) : entry :=
  Dict [ ("role", JStr "user");
         ("content",
          JStr ("```sh" ++ nl ++ command details ++ nl ++ "```" ++ nl
                ++ "Error Output:" ++ nl ++ "```" ++ nl ++ stderr details ++ nl ++ "```")) ].

(** The message appended for a tool call. *)
Definition tool_message (function_response : string) : entry :=
  Dict [ ("role", JStr "tool"); ("content", JStr function_response) ].

(** ** The world *)

(** What [subprocess.run(..., check=True)] does with an argument vector:
    exit status zero, [CalledProcessError], or another exception. *)
Inductive run_result : Type :=
| Exited0 (stdout : string)
| CalledProcessError (stderr : string)
| RunRaised (e : exn).

(** What [open(file_path, 'r')] and [read] do. *)
Inductive file_result : Type :=
| Contents (text : string)
| FileNotFoundError
| ReadRaised (e : exn).

(** The outside of the program: the platform, the processes, the working
    directory, the files and the model. *)
Record environment : Type := {
  platform_system : string;
  subprocess_run : list string -> bool -> run_result;
  getcwd : outcome string;
  open_read : string -> file_result;
  open_other : json -> outcome string;
  chat : list entry -> option (list json) -> outcome reply
}.

(** What the program did: the argument vectors it ran (with [shell]),
    the chat calls it made, and what it printed on each stream. *)
Record world : Type := {
  commands : list (list string * bool);
  requests : list (list entry * option (list json));
  printed : list string;
  printed_err : list string
}.

Definition initial : world :=
  {| commands := []; requests := []; printed := []; printed_err := [] |}.

Definition log_command (cmd : list string) (shell : bool) (w : world) : world :=
  {| commands := commands w ++ [(cmd, shell)]; requests := requests w;
     printed := printed w; printed_err := printed_err w |}.

Definition log_request (messages : list entry) (catalog : option (list json)) (w : world) : world :=
  {| commands := commands w; requests := requests w ++ [(messages, catalog)];
     printed := printed w; printed_err := printed_err w |}.

Definition print (text : string) : M world unit :=
  fun w => (Returned tt,
            {| commands := commands w; requests := requests w;
               printed := printed w ++ [text]; printed_err := printed_err w |}).

Definition print_err (text : string) : M world unit :=
  fun w => (Returned tt,
            {| commands := commands w; requests := requests w;
               printed := printed w; printed_err := printed_err w ++ [text] |}).

Section Run.

Variable env : environment.

(** [[head...] + options]: only a list can be added to a list. *)
Definition list_add (head : list json) (options : json) : outcome (list json) :=
  match options with
  | JArr items => Returned (head ++ items)%list
  | v => Raised (TypeError ("can only concatenate list (not " ++ dq ++ Str.type_name v
                             ++ dq ++ ") to list"))
  end.

(** The [subprocess.run] of [list_directory] and [list_processes], with
    the f-string of the log line before it: the [join] there raises on
    a vector that does not hold strings only. *)
Definition run_logged (failure : string) (cmd : list json) (shell : bool) : M world string :=
  argv <- lift (Str.all_str 0 cmd) ;;
  fun w =>
    let w' := log_command argv shell w in
    match subprocess_run env argv shell with
    | Exited0 stdout => (Returned stdout, w')
    | CalledProcessError stderr => (Returned (failure ++ stderr), w')
    | RunRaised e => (Raised e, w')
    end.

Definition list_directory (path options : json) : M world string :=
  try_except
    (if String.eqb (platform_system env) "Windows" then
       cmd <- lift (list_add [JStr "dir"; path] options) ;;
       run_logged "Error listing directory: " cmd true
     else
       cmd <- lift (list_add [JStr "ls"; path] options) ;;
       run_logged "Error listing directory: " cmd false)
    (fun e => ret ("Unexpected error: " ++ str_exn e)).

Definition print_working_directory : M world string :=
  try_except
    (lift (getcwd env))
    (fun e => ret ("Error getting current working directory: " ++ str_exn e)).

Definition list_processes (options : json) : M world string :=
  try_except
    (if String.eqb (platform_system env) "Windows" then
       cmd <- lift (list_add [JStr "tasklist"] options) ;;
       run_logged "Error listing processes: " cmd true
     else
       cmd <- lift (list_add [JStr "ps"] options) ;;
       run_logged "Error listing processes: " cmd false)
    (fun e => ret ("Unexpected error: " ++ str_exn e)).

(** [display_file_contents]: [open] on a path; on a value that is not
    a [str] it is not a path that [open] is given, and what it does
    then never is [FileNotFoundError]. *)
Definition display_file_contents (file_path : json) : M world string :=
  match file_path with
  | JStr path =>
      match open_read env path with
      | Contents text => ret text
      | FileNotFoundError => ret ("File not found: " ++ path)
      | ReadRaised e => ret ("Error reading file: " ++ str_exn e)
      end
  | other =>
      try_except
        (lift (open_other env other))
        (fun e => ret ("Error reading file: " ++ str_exn e))
  end.

(** [function_args[key]]. *)
Definition subscript (function_args : list (string * json)) (key : string) : outcome json :=
  match lookup key function_args with
  | Some v => Returned v
  | None => Raised (KeyError key)
  end.

(** [function_args.get(key, default)]. *)
Definition get (function_args : list (string * json)) (key : string) (default : json) : json :=
  match lookup key function_args with
  | Some v => v
  | None => default
  end.

(** [function_to_call(...)] with the arguments each branch passes. *)
Definition call (function_to_call : tool) (args : list json) : M world string :=
  match function_to_call, args with
  | list_directory_fn, [path; options] => list_directory path options
  | print_working_directory_fn, [] => print_working_directory
  | list_processes_fn, [options] => list_processes options
  | display_file_contents_fn, [file_path] => display_file_contents file_path
  | _, _ => raise (TypeError "wrong number of positional arguments")
  end.

(** The body of the loop over the tool calls, up to the [append]: the
    text that goes into the conversation for one tool call. *)
Definition function_response (t : tool_request) : M world string :=
  let function_name := function_name t in
  let function_args := function_arguments t in
  match lookup function_name AVAILABLE_FUNCTIONS with
  | Some function_to_call =>
      try_except
        (if String.eqb function_name "list_directory" then
           path <- lift (subscript function_args "path") ;;
           call function_to_call [path; get function_args "options" (JArr [])]
         else if String.eqb function_name "print_working_directory" then
           call function_to_call []
         else if String.eqb function_name "list_processes" then
           call function_to_call [get function_args "options" (JArr [])]
         else if String.eqb function_name "display_file_contents" then
           file_path <- lift (subscript function_args "file_path") ;;
           call function_to_call [file_path]
         else
           ret ("Function '" ++ function_name ++ "' is not implemented."))
        (fun e => ret ("Error executing function '" ++ function_name ++ "': " ++ str_exn e))
  | None =>
      ret ("Function '" ++ function_name ++ "' is not allowed.")
  end.

(** The loop: one [messages.append] per tool call, in order. *)
Fixpoint process_tool_calls (calls : list tool_request) (messages : list entry)
  : M world (list entry) :=
  match calls with
  | [] => ret messages
  | t :: rest =>
      response <- function_response t ;;
      process_tool_calls rest (messages ++ [tool_message response])%list
  end.

(** [client.chat], noting the request. *)
Definition client_chat (messages : list entry) (catalog : option (list json)) : M world reply :=
  fun w => (chat env messages catalog, log_request messages catalog w).

(** [response['message'].get('tool_calls')] as a condition. *)
Definition requested (m : reply) : list tool_request :=
  match tool_calls m with
  | Some calls => calls
  | None => []
  end.

(** [run] from the point where the two texts of [error_details] are
    read: the first [try] holds the first chat call only, the second
    the second call and the [print] of its answer. *)
Definition run (details : error_details) : M world unit :=
  let messages := ([system_prompt] ++ few_shot_examples ++ [user_message details])%list in
  first <- try_except
             (response <- client_chat messages (Some tools) ;; ret (Some response))
             (fun e =>
                print_err ("Error communicating with the model: " ++ str_exn e) ;;;
                ret None) ;;
  match first with
  | None => ret tt
  | Some response =>
      let messages := (messages ++ [Message response])%list in
      match requested response with
      | [] => print (content response)
      | calls =>
          messages <- process_tool_calls calls messages ;;
          try_except
            (final_response <- client_chat messages None ;;
             print (content final_response))
            (fun e => print_err ("Error communicating with the model: " ++ str_exn e))
      end
  end.



End Run.

End Ollama.

(* ===================================================================== *)
(** * Objects and their identity                                          *)
(* ===================================================================== *)

(** Whether two descriptors are one object is a question about the store:
    every dict display that is evaluated makes a new object, and a name or
    [dict.values()] hands out the objects that are there already. *)
Module Objects.

Definition address : Type := nat.

Inductive object : Type :=
| DictObject (v : json)
| FunctionObject (f : Ollama.tool).

Definition heap : Type := list object.

(** A new object at the next free address. *)
Definition alloc (o : object) : M heap address :=
  fun h => (Returned (List.length h), (h ++ [o])%list).

Definition deref (h : heap) (a : address) : option object :=
  nth_error h a.

(** An assignment through a reference: [d[key] = v] on the dict at [a]
    replaces the value held there. *)
Fixpoint store (h : heap) (a : address) (o : object) : heap :=
  match h, a with
  | [], _ => []
  | _ :: rest, O => o :: rest
  | x :: rest, S a' => x :: store rest a' o
  end.

(** A dict display [{name: {...}, ...}]: one new object per value. *)
Definition eval_dict (literal : list (string * json)) : M heap (list (string * address)) :=
  for_each (fun entry : string * json =>
              a <- alloc (DictObject (snd entry)) ;;
              ret (fst entry, a))
           literal.

(** [d['name']] of a descriptor, the key under which it is offered. *)
Definition descriptor_name (d : json) : string :=
  match d with
  | JObj fields =>
      match lookup "name" fields with
      | Some (JStr n) => n
      | _ => ""
      end
  | _ => ""
  end.

(** One element [{"type": "function", "function": {...}}] of the [tools]
    display: the inner display makes the descriptor, the outer one the
    wrapper around it. *)
Definition eval_tool (literal : json) : M heap (string * address) :=
  match literal with
  | JObj fields =>
      match lookup "function" fields with
      | Some d =>
          a <- alloc (DictObject d) ;;
          alloc (DictObject literal) ;;;
          ret (descriptor_name d, a)
      | None => raise (KeyError "function")
      end
  | _ => raise (TypeError "not a dict display")
  end.

(** What an adapter holds, by name: the values of its
    [ALLOWED_FUNCTIONS], the values of the table its dispatcher tests a
    requested name against, and the descriptors it offers to the
    engine. *)
Record catalogs : Type := {
  registry : list (string * address);
  accepted : list (string * address);
  advertised : list (string * address)
}.

(** llm_debugger.py: the module evaluates [ALLOWED_FUNCTIONS], which is
    also what [handle_function_call] tests names against;
    [create_assistant] evaluates the [tools] display of its call. *)
Definition llm_debugger : M heap catalogs :=
  allowed <- eval_dict Llm.ALLOWED_FUNCTIONS ;;
  offered <- for_each eval_tool Llm.create_assistant_tools ;;
  ret {| registry := allowed; accepted := allowed; advertised := offered |}.

(** ollama_debugger.py: the [def]s make the functions, the module
    evaluates [ALLOWED_FUNCTIONS] and then [AVAILABLE_FUNCTIONS], whose
    values are the functions; [run] tests names against
    [AVAILABLE_FUNCTIONS] and offers [list(ALLOWED_FUNCTIONS.values())],
    the objects of the registry themselves. *)
Definition ollama_debugger : M heap catalogs :=
  functions <- for_each (fun entry : string * Ollama.tool =>
                           a <- alloc (FunctionObject (snd entry)) ;;
                           ret (fst entry, a))
                        Ollama.AVAILABLE_FUNCTIONS ;;
  allowed <- eval_dict Ollama.ALLOWED_FUNCTIONS ;;
  ret {| registry := allowed; accepted := functions; advertised := allowed |}.

(** Two tables hold one and the same object under [n]. *)
Definition same_object (left right : list (string * address)) (n : string) : bool :=
  match lookup n left, lookup n right with
  | Some a, Some b => Nat.eqb a b
  | _, _ => false
  end.

(** Two tables hold dicts of equal content under [n]. *)
Definition same_content (h : heap) (left right : list (string * address)) (n : string) : Prop :=
  exists a b d,
    lookup n left = Some a /\ lookup n right = Some b
    /\ deref h a = Some (DictObject d) /\ deref h b = Some (DictObject d).

(** The adapters after their modules are loaded and the catalog is
    offered, from an empty store. *)
Definition loaded (adapter : M heap catalogs) : option (catalogs * heap) :=
  match adapter [] with
  | (Returned c, h) => Some (c, h)
  | (Raised _, _) => None
  end.

End Objects.

(* ===================================================================== *)
(** * Vocabulary of the statements and sample inputs                      *)
(* ===================================================================== *)

Module Spec.

Import Llm.

(** The strings of a list of values. *)
Fixpoint strings (items : list json) : list string :=
  match items with
  | [] => []
  | JStr s :: rest => s :: strings rest
  | _ :: rest => strings rest
  end.

(** The names under ["required"] in the descriptor of a function. *)
Definition required_arguments (function_name : string) : list string :=
  match lookup function_name ALLOWED_FUNCTIONS with
  | Some (JObj descriptor) =>
      match lookup "parameters" descriptor with
      | Some (JObj parameters) =>
          match lookup "required" parameters with
          | Some (JArr names) => strings names
          | _ => []
          end
      | _ => []
      end
  | _ => []
  end.

(** A call lacks one of the arguments its descriptor requires. *)
Definition lacks_required (function_name : string) (args : list (string * json)) : bool :=
  existsb (fun key => negb (contains key args)) (required_arguments function_name).

Definition is_sentinel (f : frame) : bool :=
  match f with Sentinel => true | Chunk _ => false end.

(** How many end markers a sequence of frames holds. *)
Definition sentinels (fs : list frame) : nat :=
  List.length (filter is_sentinel fs).

(** The text of the chunks that precede the first end marker. *)
Fixpoint text_before_sentinel (fs : list frame) : string :=
  match fs with
  | [] => ""
  | Sentinel :: _ => ""
  | Chunk text :: rest => text ++ text_before_sentinel rest
  end.

(** A callback other than an [on_text_created] that carries text. *)
Definition creates_no_text (cb : callback) : bool :=
  match cb with
  | OnTextCreated value => String.eqb value ""
  | _ => true
  end.

(** The frames the text deltas of a stream make. *)
Fixpoint chunks (cbs : list callback) : list frame :=
  match cbs with
  | [] => []
  | OnTextDelta value :: rest => Chunk value :: chunks rest
  | _ :: rest => chunks rest
  end.

(** The text the deltas of a stream carry, in order. *)
Fixpoint delta_text (cbs : list callback) : string :=
  match cbs with
  | [] => ""
  | OnTextDelta value :: rest => value ++ delta_text rest
  | _ :: rest => delta_text rest
  end.

(** A script on which every FIFO operation works. *)
Definition all_work (script : list bool) : bool := forallb (fun ok => ok) script.

(** An arguments text whose value fits the descriptors: an object whose
    [path] and [file_path], where present, are strings and whose
    [options], where present, is a list of strings. *)
Definition is_string (v : json) : bool :=
  match v with JStr _ => true | _ => false end.

Definition is_string_list (v : json) : bool :=
  match v with JArr items => forallb is_string items | _ => false end.

Definition field_fits (fits : json -> bool) (key : string) (args : list (string * json)) : bool :=
  match lookup key args with
  | Some v => fits v
  | None => true
  end.

Definition conforms (fc : function_call) : bool :=
  match arguments fc with
  | None => true
  | Some NotJson => false
  | Some (Encodes (JObj args)) =>
      field_fits is_string "path" args
      && field_fits is_string "file_path" args
      && field_fits is_string_list "options" args
  | Some (Encodes _) => false
  end.

(** The conversation [run] opens with. *)
Definition opening (details : Ollama.error_details) : list Ollama.entry :=
  ([Ollama.system_prompt] ++ Ollama.few_shot_examples ++ [Ollama.user_message details])%list.

(** An assistant id is obtained without an exception: the configuration
    holds one that is not empty, or the engine creates one. *)
Definition assistant_obtained (s : session) : bool :=
  match config_assistant_id s with
  | Some assistant_id =>
      negb (String.eqb assistant_id "") || returns (assistants_create s)
  | None => returns (assistants_create s)
  end.

(** After a failed command, all that [main] goes on to do gets through
    without an exception: the assistant id, the error details, the
    thread and the streamed run. [w1] is the world as the command left
    it. *)
Definition engine_answers (zsh : string -> proc) (s : session) (w1 : world) : bool :=
  assistant_obtained s
  && returns (fst (gather_error_details s w1))
  && returns (threads_create s)
  && returns (fst (stream zsh (run_stream s) (snd (gather_error_details s w1)))).

End Spec.

Module Samples.

Import Llm.

(** A shell in which every command prints nothing and succeeds. *)
Definition quiet_shell : string -> proc := fun _ => Completed "" "" 0%Z.




Definition call (n : string) (args : list (string * json)) : function_call :=
  {| name := Some n; arguments := Some (Encodes (JObj args)) |}.

(** A name that is not registered, with an arguments text that is not
    JSON. *)
Definition delete_all_files_garbled : function_call :=
  {| name := Some "delete_all_files"; arguments := Some NotJson |}.

Definition delete_all_files : function_call := call "delete_all_files" [].

(** [list_processes] asked for with an option that holds a command. *)
Definition ps_injection : function_call :=
  call "list_processes" [("options", JArr [JStr "; id"])].

(** [list_directory] with no arguments at all. *)
Definition ls_without_path : function_call := call "list_directory" [].

(** [display_file_contents] with no arguments at all. *)
Definition cat_without_path : function_call := call "display_file_contents" [].

(** [list_directory] with a number for a path, and with a text that is
    not JSON. *)
Definition ls_numeric_path : function_call :=
  call "list_directory" [("path", JNum 5)].

Definition ls_garbled : function_call :=
  {| name := Some "list_directory"; arguments := Some NotJson |}.

Definition pwd_call : function_call := call "print_working_directory" [].

(** A batch of two, the second with a text that is not JSON. *)
Definition batch_with_garbled : list tool_call :=
  [ {| id := "call_1"; function := pwd_call |};
    {| id := "call_2"; function := ls_garbled |} ].

Definition batch_of_two : list tool_call :=
  [ {| id := "call_1"; function := pwd_call |};
    {| id := "call_2"; function := call "list_processes" [] |} ].

Definition message_completed : callback := OnEvent "thread.message.completed" [] [].


(** A run that answers in one message. *)
Definition one_message_run : list callback :=
  [ OnEvent "thread.run.created" [] [];
    OnTextCreated ""; OnTextDelta "cd "; OnTextDelta "/existing_dir";
    message_completed;
    OnEvent "thread.run.completed" [] [] ].

(** A run whose text block is created with its first words, which the
    first delta then brings again. *)
Definition created_with_text : list callback :=
  [ OnTextCreated "cd"; OnTextDelta "cd"; OnTextDelta " /x"; message_completed ].

(** A machine on which every command of [gather_error_details] prints
    nothing, [/etc/os-release] exists, and the word [gti] is not
    found. *)
Definition no_output : string -> outcome string := fun _ => Returned "".


(** The same invocation with the engine answering in one message. *)
Definition answered : session :=
  {| api_key := "sk-test";
     argv := ["llm_debugger.py"; "gti"; "status"];
     config_assistant_id := Some "asst_1";
     assistants_create := Returned "asst_1";
     getcwd := Returned "/home/user";
     getoutput := no_output;
     os_release_exists := true;
     first_word := Returned "gti";
     which := false;
     threads_create := Returned "thread_1";
     run_stream := one_message_run |}.


(** A model that asks for a listing and for a function that does not
    exist, and then answers, on a machine where the listing works. *)
Definition two_requests : Ollama.reply :=
  {| Ollama.content := "";
     Ollama.tool_calls :=
       Some [ {| Ollama.function_name := "list_directory";
                 Ollama.function_arguments := [("path", JStr "/")] |};
              {| Ollama.function_name := "delete_all_files";
                 Ollama.function_arguments := [] |} ] |}.

Definition ollama_environment : Ollama.environment :=
  {| Ollama.platform_system := "Linux";
     Ollama.subprocess_run := fun _ _ => Ollama.Exited0 "existing_dir";
     Ollama.getcwd := Returned "/home/user";
     Ollama.open_read := fun _ => Ollama.FileNotFoundError;
     Ollama.open_other := fun _ => Raised (TypeError "expected str, bytes or os.PathLike object");
     Ollama.chat := fun _ catalog =>
                      match catalog with
                      | Some _ => Returned two_requests
                      | None => Returned {| Ollama.content := "cd /existing_dir";
                                            Ollama.tool_calls := None |}
                      end |}.

Definition cd_failed : Ollama.error_details :=
  {| Ollama.command := "cd /nonexistent_dir";
     Ollama.stderr := "cd: no such file or directory: /nonexistent_dir" |}.

End Samples.

(* ===================================================================== *)
(** * llm_debugger.py: the poll loop, the one-shot writer, the           *)
(** * configuration                                                       *)
(* ===================================================================== *)

Module Polling.

Import Llm.

(** Where the loop of [monitor_run] is when the polls at hand are used
    up: still polling, or out of the loop with the run it stopped on. *)
Inductive monitored : Type :=
| StillPolling
| Ended (r : run).

(** [run.status in ["failed", "cancelled", "expired"]]. *)
Definition gave_up (r : run) : bool :=
  String.eqb (status r) "failed"
  || String.eqb (status r) "cancelled"
  || String.eqb (status r) "expired".

Section Loop.

Variable zsh : string -> proc.

(** The [while True] of [monitor_run] over what the successive
    [runs.retrieve] give: a run, or an exception of the client, which
    nothing catches. *)
Fixpoint monitor_loop (polls : list (outcome run)) : M world monitored :=
  match polls with
  | [] => ret StillPolling
  | Raised e :: _ => raise e
  | Returned r :: rest =>
      if String.eqb (status r) "requires_action" then
        process_run zsh r ;;;
        monitor_loop rest
      else if String.eqb (status r) "completed" then
        ret (Ended r)
      else if gave_up r then
        ret (Ended r)
      else
        monitor_loop rest
  end.

(** [monitor_run]: after the loop, a completed run has its messages
    listed and the first text read, which may raise. *)
Definition monitor_run (polls : list (outcome run)) (assistant_reply : outcome string)
  : M world monitored :=
  m <- monitor_loop polls ;;
  match m with
  | Ended r =>
      if String.eqb (status r) "completed" then
        lift assistant_reply ;;;
        ret m
      else ret m
  | StillPolling => ret m
  end.

End Loop.

End Polling.

Module Writers.

Import Llm.

(** [c.isspace()] for a character below 256. *)
Definition is_space (c : ascii) : bool :=
  let n := nat_of_ascii c in
  ((9 <=? n) && (n <=? 13))%nat
  || ((28 <=? n) && (n <=? 32))%nat
  || (n =? 133)%nat
  || (n =? 160)%nat.

(** [s.lstrip()], [s.rstrip()] and [s.strip()]. *)
Fixpoint lstrip (s : string) : string :=
  match s with
  | EmptyString => EmptyString
  | String c rest => if is_space c then lstrip rest else s
  end.

Fixpoint rstrip (s : string) : string :=
  match s with
  | EmptyString => EmptyString
  | String c rest =>
      match rstrip rest with
      | EmptyString => if is_space c then EmptyString else String c EmptyString
      | kept => String c kept
      end
  end.

Definition strip (s : string) : string := rstrip (lstrip s).

(** [send_suggestion]: open the FIFO, write the stripped suggestion and a
    newline, write ['EOF'] and a newline, flush, and close on leaving the
    [with]; whatever fails is logged. The two writes go to the buffer and
    reach the pipe with the flush, so they get through together or not at
    all; when the flush fails, the close on leaving the [with] flushes
    once more before the exception is caught. *)
Definition send_suggestion (suggestion : string) : M world unit :=
  fun w =>
    let (opened, w1) := next_io w in
    if opened then
      let held := [Chunk (strip suggestion ++ nl); Chunk ("EOF" ++ nl)] in
      let (flushed, w2) := next_io (log_fifo FifoOpen w1) in
      if flushed then (Returned tt, log_fifo FifoClose (deliver_frames held w2))
      else
        let (closed, w3) := next_io w2 in
        if closed then (Returned tt, log_fifo FifoClose (deliver_frames held w3))
        else (Returned tt, log_fifo FifoClose w3)
    else (Returned tt, w1).

(** The text that has reached the pipe. *)
Fixpoint pipe_text (fs : list frame) : string :=
  match fs with
  | [] => ""
  | f :: rest => wire f ++ pipe_text rest
  end.

End Writers.

Module Config.

(** The configuration file: not there, holding a JSON value, or there and
    not to be read as JSON; and whether it can be written. *)
Inductive file : Type :=
| Absent
| Holds (v : json)
| Unreadable.

Record disk : Type := {
  config_file : file;
  writable : bool
}.

(** [load_config]: an empty dict when the file is missing or cannot be
    loaded. *)
Definition load_config (d : disk) : json :=
  match config_file d with
  | Absent => JObj []
  | Holds v => v
  | Unreadable => JObj []
  end.

(** [save_config]: a failure is printed and nothing is saved. *)
Definition save_config (config : json) (d : disk) : disk :=
  if writable d then {| config_file := Holds config; writable := true |}
  else d.

(** [d[key] = v] on the items of a dict. *)
Fixpoint dict_set (key : string) (v : json) (fields : list (string * json))
  : list (string * json) :=
  match fields with
  | [] => [(key, v)]
  | (k, old) :: rest =>
      if String.eqb key k then (k, v) :: rest
      else (k, old) :: dict_set key v rest
  end.

(** How a function that may end the process ends: with a value, with
    [sys.exit(code)], or with an exception nothing catches. *)
Inductive ending (A : Type) : Type :=
| Value (a : A)
| SysExit (code : Z)
| Uncaught (e : exn).
Arguments Value {A} a.
Arguments SysExit {A} code.
Arguments Uncaught {A} e.

(** [create_assistant_if_not_exists] with [create_assistant] inside:
    [assistants_create] is what the engine answers to the creation, and is
    looked at only when the configuration holds no truthy id. *)
Definition create_assistant_if_not_exists (assistants_create : outcome string)
           (config : json) (d : disk) : ending json * disk :=
  match config with
  | JObj fields =>
      let assistant_id := match lookup "assistant_id" fields with
                          | Some v => v
                          | None => JNull
                          end in
      if truthy assistant_id then (Value assistant_id, d)
      else
        match assistants_create with
        | Raised _ => (SysExit 1%Z, d)
        | Returned new_id =>
            (Value (JStr new_id),
             save_config (JObj (dict_set "assistant_id" (JStr new_id) fields)) d)
        end
  | other =>
      (Uncaught (AttributeError
                   ("'" ++ Str.type_name other ++ "' object has no attribute 'get'")), d)
  end.

(** One invocation as far as the assistant goes: load the configuration,
    then get the id. *)
Definition assistant_for (assistants_create : outcome string) (d : disk)
  : ending json * disk :=
  create_assistant_if_not_exists assistants_create (load_config d) d.

End Config.

(* ===================================================================== *)
(** * Shapes of streams                                                   *)
(* ===================================================================== *)

Module Shape.

Import Llm.

(** A callback that starts no nested stream and does not raise. *)
Definition flat (cb : callback) : bool :=
  match cb with
  | OnEvent event _ _ => negb (String.eqb event "thread.run.requires_action")
  | OnTextCreated _ => true
  | OnTextDelta _ => true
  | StreamError _ => false
  end.

(** The text of the [on_text_created] and [on_text_delta] callbacks of a
    stream, in order. *)
Fixpoint all_text (cbs : list callback) : string :=
  match cbs with
  | [] => ""
  | OnTextCreated value :: rest => value ++ all_text rest
  | OnTextDelta value :: rest => value ++ all_text rest
  | _ :: rest => all_text rest
  end.

(** The frames a flat stream asks to be written: a chunk per text delta,
    an end marker per completed message. *)
Fixpoint frames_due (cbs : list callback) : list frame :=
  match cbs with
  | [] => []
  | OnTextDelta value :: rest => Chunk value :: frames_due rest
  | OnEvent event _ _ :: rest =>
      if String.eqb event "thread.message.completed" then Sentinel :: frames_due rest
      else frames_due rest
  | _ :: rest => frames_due rest
  end.

(** How many [thread.message.completed] events a stream delivers. *)
Fixpoint completed_messages (cbs : list callback) : nat :=
  match cbs with
  | [] => 0
  | OnEvent event _ _ :: rest =>
      if String.eqb event "thread.message.completed" then S (completed_messages rest)
      else completed_messages rest
  | _ :: rest => completed_messages rest
  end.

(** A poll that neither ends the loop of [monitor_run] nor asks for
    action. *)
Definition waiting (poll : outcome run) : bool :=
  match poll with
  | Returned r =>
      negb (String.eqb (status r) "requires_action")
      && negb (String.eqb (status r) "completed")
      && negb (Polling.gave_up r)
  | Raised _ => false
  end.

(** A run on which the loop of [monitor_run] stops. *)
Definition terminal (r : run) : bool :=
  String.eqb (status r) "completed" || Polling.gave_up r.

(** A run with nothing but a status. *)
Definition run_in (state : string) : run :=
  {| status := state; required_action_type := "";
     run_tool_calls := []; run_continuation := [] |}.

(** What [list_directory] of ollama_debugger.py answers once
    [subprocess.run] has been given the vector. *)
Definition listing_text (env : Ollama.environment) (argv : list string) (shell : bool)
  : string :=
  match Ollama.subprocess_run env argv shell with
  | Ollama.Exited0 stdout => stdout
  | Ollama.CalledProcessError stderr => "Error listing directory: " ++ stderr
  | Ollama.RunRaised e => "Unexpected error: " ++ str_exn e
  end.



End Shape.

(* ===================================================================== *)
(** * Properties                                                          *)
(* ===================================================================== *)

(** Unfolding of the plumbing, for goals that run a computation on a
    world. *)
Ltac run_py :=
  repeat (unfold bind, ret, raise, lift, try_except in *; cbn beta iota in *).

(** ** The dispatcher *)

Section DispatcherProperties.

Import Llm.

Variable zsh : string -> proc.

(** [execute_shell_command] always returns and spawns exactly its
    command. *)
Lemma execute_shell_command_returns (command : string) (w : world) :
  exists stdout stderr exit_status,
    execute_shell_command zsh command w
    = (Returned (stdout, stderr, exit_status), log_spawn command w).
Proof.
  unfold execute_shell_command.
  destruct (zsh command) as [out err code | what]; eauto.
Qed.

Lemma run_command_returns (command : string) (w : world) :
  exists stdout stderr exit_status,
    run_command zsh command w
    = (Returned (Output stdout stderr exit_status), log_spawn command w).
Proof.
  unfold run_command.
  destruct (execute_shell_command_returns command w) as (out & err & code & E).
  exists out, err, code. run_py. now rewrite E.
Qed.

(** A name outside the registry: once the arguments are decoded, the
    answer is the error dict and the world is untouched. *)
Lemma not_allowed_rejected (fc : function_call) (v : json) (w : world) :
  allowed (name fc) = false ->
  json_loads (arguments fc) = Returned v ->
  handle_function_call zsh fc w
  = (Returned (Error ("Function '" ++ show_name (name fc) ++ "' is not allowed.")), w).
Proof.
  intros Hname Hargs. unfold handle_function_call. run_py.
  now rewrite Hargs, Hname.
Qed.

(** A name outside the registry never gets a process, whatever the
    arguments are. *)
Lemma not_allowed_spawns_nothing (fc : function_call) (w : world) :
  allowed (name fc) = false ->
  snd (handle_function_call zsh fc w) = w.
Proof.
  intros Hname. unfold handle_function_call. run_py.
  destruct (json_loads (arguments fc)) as [v | e]; [| reflexivity].
  now rewrite Hname.
Qed.

End DispatcherProperties.

Section DispatcherFaults.

Import Llm.

Variable zsh : string -> proc.

(** A list of strings is joined without an exception. *)
Lemma all_str_of_strings (items : list json) (i : nat) :
  forallb Spec.is_string items = true ->
  exists parts, Str.all_str i items = Returned parts.
Proof.
  revert i. induction items as [| v rest IH]; intros i H; cbn in *.
  - now exists [].
  - apply andb_prop in H as [Hv Hrest].
    destruct v; try discriminate.
    destruct (IH (S i) Hrest) as (parts & E). rewrite E. eauto.
Qed.

Lemma join_value_of_strings (sep : string) (v : json) :
  Spec.is_string_list v = true ->
  exists text, Str.join_value sep v = Returned text.
Proof.
  destruct v; try discriminate. cbn. intros H.
  destruct (all_str_of_strings items 0 H) as (parts & E). rewrite E. eauto.
Qed.

Lemma quote_of_string (v : json) :
  Spec.is_string v = true -> exists text, Shlex.quote v = Returned text.
Proof.
  destruct v; try discriminate. intros _. unfold Shlex.quote.
  destruct (negb (truthy (JStr s))); eauto.
Qed.

(** The value [get] hands out fits when the field fits and the default
    does. *)
Lemma dict_get_fits (fits : json -> bool) (key : string)
      (args : list (string * json)) (default : json) :
  Spec.field_fits fits key args = true ->
  fits default = true ->
  exists v, dict_get (JObj args) key default = Returned v /\ fits v = true.
Proof.
  unfold Spec.field_fits, dict_get. intros Hfield Hdefault.
  destruct (lookup key args) as [v |]; eauto.
Qed.

(** On arguments that fit the descriptors the dispatcher returns a
    result, whatever the name is. *)
Lemma conforming_call_returns (fc : function_call) (w : world) :
  Spec.conforms fc = true ->
  exists r w', handle_function_call zsh fc w = (Returned r, w').
Proof.
  unfold Spec.conforms. intros H.
  assert (exists args, json_loads (arguments fc) = Returned (JObj args)
                       /\ Spec.field_fits Spec.is_string "path" args = true
                       /\ Spec.field_fits Spec.is_string "file_path" args = true
                       /\ Spec.field_fits Spec.is_string_list "options" args = true)
    as (args & Hloads & Hpath & Hfile & Hopts).
  { destruct (arguments fc) as [[| v] |]; try discriminate.
    - destruct v; try discriminate.
      apply andb_prop in H as [H Ho]. apply andb_prop in H as [Hp Hf].
      exists fields. cbn. auto.
    - exists []. cbn. auto. }
  unfold handle_function_call. run_py. rewrite Hloads.
  destruct (allowed (name fc)); cbn [negb]; [| eauto].
  destruct (dict_get_fits Spec.is_string_list "options" args (JArr []) Hopts eq_refl)
    as (opts & Eopts & Fopts).
  destruct (join_value_of_strings " " opts Fopts) as (options & Ejoin).
  destruct (is_name (name fc) "list_directory").
  { destruct (dict_get_fits Spec.is_string "path" args (JStr ".") Hpath eq_refl)
      as (path & Epath & Fpath).
    destruct (quote_of_string path Fpath) as (quoted & Equote).
    rewrite Epath, Eopts, Ejoin, Equote.
    destruct (run_command_returns zsh ("ls " ++ options ++ " " ++ quoted) w)
      as (out & err & code & E).
    rewrite E. eauto. }
  destruct (is_name (name fc) "print_working_directory").
  { destruct (run_command_returns zsh "pwd" w) as (out & err & code & E).
    rewrite E. eauto. }
  destruct (is_name (name fc) "list_processes").
  { rewrite Eopts, Ejoin.
    destruct (run_command_returns zsh ("ps " ++ options) w) as (out & err & code & E).
    rewrite E. eauto. }
  destruct (is_name (name fc) "display_file_contents"); [| eauto].
  assert (exists v, dict_get (JObj args) "file_path" JNull = Returned v
                    /\ (truthy v = true -> Spec.is_string v = true))
    as (v & Ev & Fv).
  { unfold dict_get, Spec.field_fits in *.
    destruct (lookup "file_path" args) as [v |]; [eauto |].
    exists JNull. split; [reflexivity | discriminate]. }
  rewrite Ev.
  destruct (truthy v) eqn:Htruth; cbn [negb]; [| eauto].
  destruct (quote_of_string v (Fv eq_refl)) as (quoted & Equote). rewrite Equote.
  destruct (run_command_returns zsh ("cat " ++ quoted) w) as (out & err & code & E).
  rewrite E. eauto.
Qed.

(** C1. Claimed: a name outside the registry always gets the error result
    ["Function '<name>' is not allowed."] and no process. Evaluated on a
    request for [delete_all_files] whose arguments text is not JSON:
    [json.loads] runs before the test of the name, so the dispatcher
    raises and returns no result. (With a text that decodes the result
    is as claimed, [not_allowed_rejected]; no process is spawned in
    either case, [not_allowed_spawns_nothing].) *)
Theorem disallowed_name_garbled_arguments_raises (w : world) :
  allowed (name Samples.delete_all_files_garbled) = false
  /\ handle_function_call zsh Samples.delete_all_files_garbled w
     = (Raised JSONDecodeError, w).
Proof. split; reflexivity. Qed.

(** C6. Claimed: the dispatcher returns a result for every request and
    never raises. Evaluated on [list_directory] with a text that is not
    JSON and with a number for a path: [json.loads] and [shlex.quote]
    raise outside of any [try], and the exception leaves
    [handle_function_call]. *)
Theorem dispatcher_lets_exceptions_out (w : world) :
  handle_function_call zsh Samples.ls_garbled w = (Raised JSONDecodeError, w)
  /\ handle_function_call zsh Samples.ls_numeric_path w
     = (Raised (TypeError "expected string or bytes-like object"), w).
Proof. split; reflexivity. Qed.

End DispatcherFaults.

(** ** The command line *)

Section CommandLine.

Import Llm.

Variable zsh : string -> proc.

Lemma all_str_map_JStr (parts : list string) (i : nat) :
  Str.all_str i (map JStr parts) = Returned parts.
Proof.
  revert i. induction parts as [| p rest IH]; intros i; cbn; [reflexivity |].
  now rewrite IH.
Qed.

(** [shlex.quote] on a [str] never raises. *)
Lemma quote_string (s : string) : Shlex.quote (JStr s) = Returned (Shlex.quote_str s).
Proof.
  unfold Shlex.quote, Shlex.quote_str. cbn.
  destruct (String.eqb s ""); reflexivity.
Qed.

(** The command of [list_processes]: the options joined by blanks, as
    they came. *)
Lemma ps_command_line (fc : function_call) (options : list string) (w : world) :
  name fc = Some "list_processes" ->
  arguments fc = Some (Encodes (JObj [("options", JArr (map JStr options))])) ->
  handle_function_call zsh fc w = run_command zsh ("ps " ++ Str.join " " options) w.
Proof.
  intros Hname Hargs. unfold handle_function_call. run_py.
  rewrite Hname, Hargs. cbn. now rewrite all_str_map_JStr.
Qed.

(** The command of [list_directory]: the options as they came, the path
    through [shlex.quote]. *)
Lemma ls_command_line (fc : function_call) (path : string) (options : list string) (w : world) :
  name fc = Some "list_directory" ->
  arguments fc
  = Some (Encodes (JObj [("path", JStr path); ("options", JArr (map JStr options))])) ->
  handle_function_call zsh fc w
  = run_command zsh ("ls " ++ Str.join " " options ++ " " ++ Shlex.quote_str path) w.
Proof.
  intros Hname Hargs. unfold handle_function_call. run_py.
  rewrite Hname, Hargs.
  change (allowed (Some "list_directory")) with true.
  change (is_name (Some "list_directory") "list_directory") with true.
  cbn [negb json_loads dict_get lookup String.eqb Ascii.eqb Bool.eqb].
  cbn [Str.join_value]. rewrite all_str_map_JStr. now rewrite quote_string.
Qed.

(** C2. Claimed: every argument value is quoted before it goes into the
    command line, so none of them can change the command. Evaluated on
    [list_processes] with the option ["; id"]: the options are joined
    and put into the line as they are, and the shell is given
    ["ps ; id"]. *)
Theorem option_reaches_shell_unquoted (w : world) :
  exists stdout stderr exit_status,
    handle_function_call zsh Samples.ps_injection w
    = (Returned (Output stdout stderr exit_status), log_spawn "ps ; id" w).
Proof.
  destruct (run_command_returns zsh "ps ; id" w) as (out & err & code & E).
  exists out, err, code. rewrite <- E.
  exact (ps_command_line Samples.ps_injection ["; id"] w eq_refl eq_refl).
Qed.

(** C3 as amended. [display_file_contents] without a [file_path] gets
    the error result ["Missing 'file_path' argument."] and the world is
    left as it was; [list_directory] without a [path] is no error: the
    path is ['.'] and the listing is run. *)
Theorem missing_required_argument (fc : function_call) (args : list (string * json)) (w : world) :
  arguments fc = Some (Encodes (JObj args)) ->
  (name fc = Some "display_file_contents" ->
   lookup "file_path" args = None ->
   handle_function_call zsh fc w
   = (Returned (Error "Missing 'file_path' argument."), w))
  /\ (name fc = Some "list_directory" ->
      lookup "path" args = None ->
      forall options : string,
        Str.join_value " " (match lookup "options" args with
                            | Some v => v
                            | None => JArr []
                            end) = Returned options ->
        handle_function_call zsh fc w = run_command zsh ("ls " ++ options ++ " .") w).
Proof.
  intros Hargs. split.
  - intros Hname Hmissing. unfold handle_function_call. run_py.
    rewrite Hname, Hargs.
    change (allowed (Some "display_file_contents")) with true.
    cbn [negb json_loads is_name String.eqb Ascii.eqb Bool.eqb].
    unfold dict_get. now rewrite Hmissing.
  - intros Hname Hmissing options Hjoin. unfold handle_function_call. run_py.
    rewrite Hname, Hargs.
    change (allowed (Some "list_directory")) with true.
    change (is_name (Some "list_directory") "list_directory") with true.
    cbn [negb json_loads]. unfold dict_get. rewrite Hmissing.
    destruct (lookup "options" args) as [v |]; now rewrite Hjoin.
Qed.

End CommandLine.

(** C3, where the code departs from it: [list_directory] is allowed, its
    descriptor requires [path], and a call without it is answered with the
    output of [ls] on ['.'], a process having been spawned. *)
Lemma list_directory_without_path_is_run :
  ~ (forall (zsh : string -> Llm.proc) (n : string) (args : list (string * json)) (w : Llm.world),
        Llm.allowed (Some n) = true ->
        Spec.lacks_required n args = true ->
        exists message,
          Llm.handle_function_call zsh (Samples.call n args) w
          = (Returned (Llm.Error message), w)).
Proof.
  intros claim.
  destruct (claim Samples.quiet_shell "list_directory" [] (Llm.initial []) eq_refl eq_refl)
    as (message & E).
  discriminate E.
Qed.

Lemma missing_required_argument_witness :
  Llm.handle_function_call Samples.quiet_shell Samples.cat_without_path (Llm.initial [])
  = (Returned (Llm.Error "Missing 'file_path' argument."), Llm.initial [])
  /\ Llm.handle_function_call Samples.quiet_shell Samples.ls_without_path (Llm.initial [])
     = Llm.run_command Samples.quiet_shell "ls  ." (Llm.initial []).
Proof.
  split.
  - exact (proj1 (missing_required_argument Samples.quiet_shell Samples.cat_without_path
                    (Llm.initial []) eq_refl) eq_refl eq_refl).
  - exact (proj2 (missing_required_argument Samples.quiet_shell Samples.ls_without_path
                    (Llm.initial []) eq_refl) eq_refl eq_refl "" eq_refl).
Defined.

(** ** Streams *)

Section Streams.

Import Llm.

Variable zsh : string -> proc.

(** The nested loop inside [deliver] is [until_done]. *)
Lemma deliver_on_event (event : string) (calls : list tool_call)
      (continuation : list callback) (h : handler) :
  deliver zsh (OnEvent event calls continuation) h
  = on_event zsh (until_done zsh) event calls continuation h.
Proof. reflexivity. Qed.

Lemma append_empty (s : string) : s ++ "" = s.
Proof. induction s as [| c s IH]; cbn; [reflexivity | now rewrite IH]. Qed.

Lemma append_assoc (a b c : string) : (a ++ b) ++ c = a ++ (b ++ c).
Proof. induction a as [| x a IH]; cbn; [reflexivity | now rewrite IH]. Qed.

(** Taking the next fate off a script on which everything works gives
    [true] and leaves such a script. *)
Lemma next_io_works (w : world) :
  Spec.all_work (io_script w) = true ->
  fst (next_io w) = true
  /\ Spec.all_work (io_script (snd (next_io w))) = true
  /\ spawned (snd (next_io w)) = spawned w
  /\ fifo_log (snd (next_io w)) = fifo_log w
  /\ submitted (snd (next_io w)) = submitted w.
Proof.
  unfold next_io. destruct (io_script w) as [| ok rest] eqn:E; cbn.
  - intros _. rewrite E. auto.
  - intros H. apply andb_prop in H as [Hok Hrest]. auto.
Qed.

Lemma next_io_keeps_buffers (w : world) : buffers (snd (next_io w)) = buffers w.
Proof. unfold next_io. destruct (io_script w); reflexivity. Qed.

(** A write on an open FIFO that works, through a handle that holds
    nothing back, adds its frame to the log and nothing else. *)
Lemma fifo_write_works (h : handler) (f : frame) (w : world) (outer : list (list frame)) :
  fifo h = true ->
  Spec.all_work (io_script w) = true ->
  buffers w = [] :: outer ->
  exists w',
    fifo_write h f w = (Returned tt, w')
    /\ fifo_log w' = (fifo_log w ++ [FifoWrite f])%list
    /\ spawned w' = spawned w
    /\ submitted w' = submitted w
    /\ Spec.all_work (io_script w') = true
    /\ buffers w' = [] :: outer.
Proof.
  intros Hopen Hscript Hheld. unfold fifo_write. rewrite Hopen.
  destruct (next_io_works w Hscript) as (Hok & Hrest & Hsp & Hlog & Hsub).
  pose proof (next_io_keeps_buffers w) as Hbuf.
  destruct (next_io w) as [ok w1]. cbn [fst snd] in *. subst ok.
  unfold pending. rewrite Hbuf, Hheld.
  eexists. split; [reflexivity |]. cbn. rewrite Hlog, Hsp, Hsub. auto.
Qed.

(** A write never raises and touches nothing but the FIFO and the
    buffer of its handle: the frame reaches the pipe, after what the
    buffer held, or it joins the buffer. *)
Lemma fifo_write_is_quiet (h : handler) (f : frame) (w : world) :
  exists w',
    fifo_write h f w = (Returned tt, w')
    /\ spawned w' = spawned w
    /\ submitted w' = submitted w
    /\ (List.length (fifo_log w') + List.length (pending w')
        <= List.length (fifo_log w) + List.length (pending w) + 1)%nat.
Proof.
  unfold fifo_write. destruct (fifo h); [| exists w; repeat split; auto; lia].
  pose proof (next_io_keeps_buffers w) as Hbuf.
  assert (Hsame : spawned (snd (next_io w)) = spawned w
                  /\ submitted (snd (next_io w)) = submitted w
                  /\ fifo_log (snd (next_io w)) = fifo_log w).
  { unfold next_io. destruct (io_script w); cbn; auto. }
  destruct Hsame as (Hsp & Hsub & Hlog).
  destruct (next_io w) as [ok w1]. cbn [fst snd] in *.
  assert (Hheld : pending w1 = pending w) by (unfold pending; now rewrite Hbuf).
  unfold pending in *.
  destruct ok; eexists; (split; [reflexivity |]);
    cbn [set_buffers deliver_frames spawned submitted fifo_log buffers hd];
    rewrite ?length_app, ?length_map, ?length_app, Hheld, Hlog;
    cbn [List.length]; repeat split; auto; lia.
Qed.

(** Without its [fifo] a handler leaves the world alone. *)
Lemma fifo_write_without_fifo (h : handler) (f : frame) (w : world) :
  fifo h = false -> fifo_write h f w = (Returned tt, w).
Proof. unfold fifo_write. now intros ->. Qed.

(** The close of a handle that holds nothing back. *)
Lemma del_works (h : handler) (w : world) (outer : list (list frame)) :
  fifo h = true ->
  buffers w = [] :: outer ->
  del h w = (Returned tt, set_buffers outer (log_fifo FifoClose w)).
Proof.
  intros Hopen Hheld. unfold del, pending. rewrite Hopen, Hheld. reflexivity.
Qed.

(** [__del__] never raises, and puts on the pipe at most what the
    buffer held, and the close. *)
Lemma del_is_quiet (h : handler) (w : world) :
  exists w',
    del h w = (Returned tt, w')
    /\ spawned w' = spawned w
    /\ submitted w' = submitted w
    /\ (List.length (fifo_log w')
        <= List.length (fifo_log w) + List.length (pending w) + 1)%nat.
Proof.
  unfold del. destruct (fifo h); [| exists w; repeat split; auto; lia].
  destruct (pending w) as [| f held] eqn:Hheld.
  - eexists. split; [reflexivity |]. cbn. rewrite length_app. cbn. repeat split; auto; lia.
  - assert (Hsame : spawned (snd (next_io w)) = spawned w
                    /\ submitted (snd (next_io w)) = submitted w
                    /\ fifo_log (snd (next_io w)) = fifo_log w).
    { unfold next_io. destruct (io_script w); cbn; auto. }
    destruct Hsame as (Hsp & Hsub & Hlog).
    destruct (next_io w) as [ok w1]. cbn [fst snd] in *.
    destruct ok; eexists; (split; [reflexivity |]);
      cbn [set_buffers deliver_frames log_fifo spawned submitted fifo_log];
      rewrite ?length_app, ?length_map, Hlog; cbn [List.length];
      repeat split; auto; lia.
Qed.

Lemma handler_eta (h : handler) :
  {| suggestion := suggestion h ++ ""; fifo := fifo h |} = h.
Proof. destruct h as [s f]. cbn. now rewrite append_empty. Qed.

Lemma until_done_app (front back : list callback) (h : handler) (w : world) :
  until_done zsh (front ++ back) h w
  = (h' <- until_done zsh front h ;; until_done zsh back h') w.
Proof.
  revert h w. induction front as [| cb rest IH]; intros h w; cbn; [reflexivity |].
  run_py. destruct (deliver zsh cb h w) as [[h1 | e] w1]; [apply IH | reflexivity].
Qed.

Lemma frames_app (front back : list fifo_op) :
  frames (front ++ back) = (frames front ++ frames back)%list.
Proof.
  induction front as [| op rest IH]; cbn; [reflexivity |].
  destruct op; cbn; now rewrite IH.
Qed.

Lemma frames_writes (fs : list frame) : frames (map FifoWrite fs) = fs.
Proof. induction fs as [| f rest IH]; cbn; [reflexivity | now rewrite IH]. Qed.


Lemma text_of_chunks (cbs : list callback) (after : list frame) :
  Spec.text_before_sentinel (Spec.chunks cbs ++ Sentinel :: after) = Spec.delta_text cbs.
Proof.
  induction cbs as [| cb rest IH]; cbn; [reflexivity |].
  destruct cb; cbn; try assumption. now rewrite IH.
Qed.

Lemma no_chunks_no_text (cbs : list callback) :
  Spec.chunks cbs = [] -> Spec.delta_text cbs = "".
Proof.
  induction cbs as [| cb rest IH]; cbn; [reflexivity |].
  destruct cb; cbn; try assumption. discriminate.
Qed.

(** What a flat stream does to a handler and the world, whatever the fate
    of the flushes: the text of its callbacks is added to the suggestion,
    and at most the frames it asks for come to the pipe or to the buffer
    of the handle. *)
Lemma until_done_flat (cbs : list callback) (h : handler) (w : world) :
  forallb Shape.flat cbs = true ->
  exists w',
    until_done zsh cbs h w
    = (Returned {| suggestion := suggestion h ++ Shape.all_text cbs; fifo := fifo h |}, w')
    /\ spawned w' = spawned w
    /\ submitted w' = submitted w
    /\ (List.length (fifo_log w') + List.length (pending w')
        <= List.length (fifo_log w) + List.length (pending w)
           + List.length (Shape.frames_due cbs))%nat.
Proof.
  revert h w. induction cbs as [| cb rest IH]; intros h w Hflat.
  - exists w. cbn. rewrite handler_eta. run_py. repeat split; auto. lia.
  - cbn [forallb] in Hflat. apply andb_prop in Hflat as [Hcb Hrest].
    destruct cb as [event calls continuation | value | value | what];
      cbn [Shape.flat] in Hcb; try discriminate.
    + apply negb_true_iff in Hcb.
      cbn [until_done Shape.all_text Shape.frames_due].
      rewrite deliver_on_event. unfold on_event. rewrite Hcb.
      unfold handle_final_message, handle_general_event. run_py.
      destruct (String.eqb event "thread.message.completed").
      * destruct (fifo_write_is_quiet h Sentinel w) as (w1 & Ew & Hsp1 & Hsub1 & Hlen1).
        destruct (IH h w1 Hrest) as (w' & E & Hsp & Hsub & Hlen).
        exists w'. rewrite Ew, E. repeat split; try congruence.
        cbn [List.length]. lia.
      * destruct (IH h w Hrest) as (w' & E & Hsp & Hsub & Hlen).
        exists w'. rewrite E. auto.
    + set (h1 := {| suggestion := suggestion h ++ value; fifo := fifo h |}).
      destruct (IH h1 w Hrest) as (w' & E & Hsp & Hsub & Hlen).
      exists w'. cbn [until_done deliver Shape.all_text Shape.frames_due].
      unfold on_text_created. fold h1. run_py. rewrite E. cbn [suggestion fifo h1].
      rewrite append_assoc. auto.
    + set (h1 := {| suggestion := suggestion h ++ value; fifo := fifo h |}).
      destruct (fifo_write_is_quiet h1 (Chunk value) w) as (w1 & Ew & Hsp1 & Hsub1 & Hlen1).
      destruct (IH h1 w1 Hrest) as (w' & E & Hsp & Hsub & Hlen).
      exists w'. cbn [until_done deliver Shape.all_text Shape.frames_due].
      unfold on_text_delta. fold h1. run_py. rewrite Ew, E. cbn [suggestion fifo h1].
      rewrite append_assoc. repeat split; try congruence.
      cbn [List.length]. lia.
Qed.

(** The same on a FIFO that is open and takes every flush: the frames
    asked for are the frames on the pipe, in order, and the handle holds
    nothing back. *)
Lemma until_done_flat_working (cbs : list callback) (h : handler) (w : world)
      (outer : list (list frame)) :
  forallb Shape.flat cbs = true ->
  fifo h = true ->
  Spec.all_work (io_script w) = true ->
  buffers w = [] :: outer ->
  exists w',
    until_done zsh cbs h w
    = (Returned {| suggestion := suggestion h ++ Shape.all_text cbs; fifo := true |}, w')
    /\ fifo_log w' = (fifo_log w ++ map FifoWrite (Shape.frames_due cbs))%list
    /\ spawned w' = spawned w
    /\ submitted w' = submitted w
    /\ Spec.all_work (io_script w') = true
    /\ buffers w' = [] :: outer.
Proof.
  revert h w. induction cbs as [| cb rest IH]; intros h w Hflat Hopen Hscript Hheld.
  - exists w. destruct h as [s f]. cbn in *. subst f.
    rewrite append_empty, app_nil_r. run_py. auto 6.
  - cbn [forallb] in Hflat. apply andb_prop in Hflat as [Hcb Hrest].
    destruct cb as [event calls continuation | value | value | what];
      cbn [Shape.flat] in Hcb; try discriminate.
    + apply negb_true_iff in Hcb.
      cbn [until_done Shape.all_text Shape.frames_due].
      rewrite deliver_on_event. unfold on_event. rewrite Hcb.
      unfold handle_final_message, handle_general_event. run_py.
      destruct (String.eqb event "thread.message.completed").
      * destruct (fifo_write_works h Sentinel w Hopen Hscript Hheld)
          as (w1 & Ew & Hlog1 & Hsp1 & Hsub1 & Hio1 & Hheld1).
        destruct (IH h w1 Hrest Hopen Hio1 Hheld1)
          as (w' & E & Hlog & Hsp & Hsub & Hio & Hheld').
        exists w'. rewrite Ew, E. cbn [map].
        rewrite Hlog, Hlog1, Hsp, Hsp1, Hsub, Hsub1, <- app_assoc. auto 6.
      * destruct (IH h w Hrest Hopen Hscript Hheld)
          as (w' & E & Hlog & Hsp & Hsub & Hio & Hheld').
        exists w'. rewrite E. auto 6.
    + set (h1 := {| suggestion := suggestion h ++ value; fifo := fifo h |}).
      destruct (IH h1 w Hrest Hopen Hscript Hheld)
        as (w' & E & Hlog & Hsp & Hsub & Hio & Hheld').
      exists w'. cbn [until_done deliver Shape.all_text Shape.frames_due].
      unfold on_text_created. fold h1. run_py. rewrite E. cbn [suggestion h1].
      rewrite append_assoc. auto 6.
    + set (h1 := {| suggestion := suggestion h ++ value; fifo := fifo h |}).
      destruct (fifo_write_works h1 (Chunk value) w Hopen Hscript Hheld)
        as (w1 & Ew & Hlog1 & Hsp1 & Hsub1 & Hio1 & Hheld1).
      destruct (IH h1 w1 Hrest Hopen Hio1 Hheld1)
        as (w' & E & Hlog & Hsp & Hsub & Hio & Hheld').
      exists w'. cbn [until_done deliver Shape.all_text Shape.frames_due map].
      unfold on_text_delta. fold h1. run_py. rewrite Ew, E. cbn [suggestion h1].
      rewrite append_assoc, Hlog, Hlog1, Hsp, Hsp1, Hsub, Hsub1, <- app_assoc. auto 6.
Qed.

(** The same without a [fifo]: nothing at all happens to the world. *)
Lemma until_done_flat_unopened (cbs : list callback) (h : handler) (w : world) :
  forallb Shape.flat cbs = true ->
  fifo h = false ->
  until_done zsh cbs h w
  = (Returned {| suggestion := suggestion h ++ Shape.all_text cbs; fifo := false |}, w).
Proof.
  revert h. induction cbs as [| cb rest IH]; intros h Hflat Hclosed.
  - destruct h as [s f]. cbn in *. subst f. now rewrite append_empty.
  - cbn [forallb] in Hflat. apply andb_prop in Hflat as [Hcb Hrest].
    destruct cb as [event calls continuation | value | value | what];
      cbn [Shape.flat] in Hcb; try discriminate.
    + apply negb_true_iff in Hcb.
      cbn [until_done Shape.all_text]. rewrite deliver_on_event. unfold on_event.
      rewrite Hcb. unfold handle_final_message, handle_general_event. run_py.
      destruct (String.eqb event "thread.message.completed");
        [rewrite (fifo_write_without_fifo h Sentinel w Hclosed) |]; now rewrite IH.
    + set (h1 := {| suggestion := suggestion h ++ value; fifo := fifo h |}).
      cbn [until_done deliver Shape.all_text]. unfold on_text_created. fold h1. run_py.
      rewrite (IH h1 Hrest Hclosed). cbn [suggestion h1]. now rewrite append_assoc.
    + set (h1 := {| suggestion := suggestion h ++ value; fifo := fifo h |}).
      cbn [until_done deliver Shape.all_text]. unfold on_text_delta. fold h1. run_py.
      rewrite (fifo_write_without_fifo h1 (Chunk value) w Hclosed).
      rewrite (IH h1 Hrest Hclosed). cbn [suggestion h1]. now rewrite append_assoc.
Qed.

Lemma sentinels_due (cbs : list callback) :
  Spec.sentinels (Shape.frames_due cbs) = Shape.completed_messages cbs.
Proof.
  unfold Spec.sentinels. induction cbs as [| cb rest IH]; cbn; [reflexivity |].
  destruct cb as [event calls continuation | value | value | what]; cbn; try exact IH.
  destruct (String.eqb event "thread.message.completed"); cbn; now rewrite ?IH.
Qed.

(** Without a completed message the frames asked for are the chunks of
    the text deltas. *)
Lemma due_without_completed (cbs : list callback) :
  Shape.completed_messages cbs = 0%nat -> Shape.frames_due cbs = Spec.chunks cbs.
Proof.
  induction cbs as [| cb rest IH]; cbn; [reflexivity |].
  destruct cb as [event calls continuation | value | value | what]; cbn; auto.
  - destruct (String.eqb event "thread.message.completed"); [discriminate | exact IH].
  - intros H. now rewrite IH.
Qed.

Lemma frames_due_app (front back : list callback) :
  Shape.frames_due (front ++ back) = (Shape.frames_due front ++ Shape.frames_due back)%list.
Proof.
  induction front as [| cb rest IH]; cbn; [reflexivity |].
  destruct cb as [event calls continuation | value | value | what]; cbn; auto.
  - destruct (String.eqb event "thread.message.completed"); cbn; now rewrite IH.
  - now rewrite IH.
Qed.

Lemma all_text_app (front back : list callback) :
  Shape.all_text (front ++ back) = Shape.all_text front ++ Shape.all_text back.
Proof.
  induction front as [| cb rest IH]; cbn; [reflexivity |].
  destruct cb as [event calls continuation | value | value | what]; cbn; auto;
    now rewrite IH, append_assoc.
Qed.

(** When no [on_text_created] carries text, the text of the callbacks is
    the text of the deltas. *)
Lemma text_without_created (cbs : list callback) :
  forallb Spec.creates_no_text cbs = true -> Shape.all_text cbs = Spec.delta_text cbs.
Proof.
  induction cbs as [| cb rest IH]; cbn; [reflexivity |].
  intros H. apply andb_prop in H as [Hcb Hrest].
  destruct cb as [event calls continuation | value | value | what]; cbn in *; auto.
  - apply String.eqb_eq in Hcb. subst value. cbn. auto.
  - now rewrite IH.
Qed.

(** A flat stream on a handler of its own, from any world in which the
    FIFO works: open, the frames asked for, close. *)
Lemma stream_flat_from (cbs : list callback) (w : world) :
  forallb Shape.flat cbs = true ->
  Spec.all_work (io_script w) = true ->
  exists w',
    stream zsh cbs w = (Returned {| suggestion := Shape.all_text cbs; fifo := true |}, w')
    /\ fifo_log w'
       = (fifo_log w ++ FifoOpen :: map FifoWrite (Shape.frames_due cbs) ++ [FifoClose])%list
    /\ spawned w' = spawned w
    /\ submitted w' = submitted w
    /\ Spec.all_work (io_script w') = true
    /\ buffers w' = buffers w.
Proof.
  intros Hflat Hscript. unfold stream, new_handler.
  destruct (next_io_works w Hscript) as (Hok & Hio0 & Hsp0 & Hlog0 & Hsub0).
  pose proof (next_io_keeps_buffers w) as Hbuf0.
  set (h0 := {| suggestion := ""; fifo := true |}).
  destruct (next_io w) as [ok w0] eqn:E0.
  cbn [fst snd] in Hok, Hio0, Hsp0, Hlog0, Hsub0, Hbuf0. subst ok.
  set (wa := set_buffers ([] :: buffers w0) (log_fifo FifoOpen w0)).
  destruct (until_done_flat_working cbs h0 wa (outer := buffers w0) Hflat eq_refl Hio0 eq_refl)
    as (w1 & E1 & Hlog1 & Hsp1 & Hsub1 & Hio1 & Hheld1).
  exists (set_buffers (buffers w0) (log_fifo FifoClose w1)). split.
  - unfold bind at 1. rewrite E0. cbn iota beta. fold wa.
    unfold finalized. rewrite E1.
    rewrite (del_works h0 w1 (outer := buffers w0) eq_refl Hheld1). reflexivity.
  - cbn [set_buffers log_fifo fifo_log spawned submitted io_script buffers].
    rewrite Hlog1, Hsp1, Hsub1. unfold wa.
    cbn [set_buffers log_fifo fifo_log spawned submitted].
    rewrite Hlog0, Hsp0, Hsub0, <- !app_assoc. cbn [app]. auto 6.
Qed.

(** A stream with one [thread.message.completed], flat callbacks before
    it and after it, is flat, and asks for the frames of the callbacks
    before it, the end marker, and the frames of the callbacks after
    it. *)
Lemma one_message_is_flat (body tail : list callback) (calls : list tool_call)
      (continuation : list callback) :
  forallb Shape.flat body = true ->
  forallb Shape.flat tail = true ->
  forallb Shape.flat (body ++ OnEvent "thread.message.completed" calls continuation :: tail)
  = true
  /\ Shape.frames_due (body ++ OnEvent "thread.message.completed" calls continuation :: tail)
     = (Shape.frames_due body ++ Sentinel :: Shape.frames_due tail)%list.
Proof.
  intros Hbody Htail. split.
  - rewrite forallb_app, Hbody. cbn. exact Htail.
  - rewrite frames_due_app. reflexivity.
Qed.

End Streams.

(** ** The end marker and the text on the FIFO *)

Section Sink.

Import Llm.

Variable zsh : string -> proc.



(** C8 as amended. On a FIFO that opens and takes every write, for a
    stream without tool calls and without an exception of the client,
    whose first [thread.message.completed] event comes after the last
    text delta, the chunks written before the end marker spell the text
    of the [on_text_delta] callbacks, in order. The suggestion the
    handler has gathered is the text of the [on_text_created] and
    [on_text_delta] callbacks, in order. So the two are the same text
    when no [on_text_created] carries text. *)
Theorem pipe_text_is_suggestion
        (body tail : list callback) (calls : list tool_call)
        (continuation : list callback) (script : list bool) :
  forallb Shape.flat body = true ->
  Shape.completed_messages body = 0%nat ->
  forallb Shape.flat tail = true ->
  Spec.chunks tail = [] ->
  Spec.all_work script = true ->
  let cbs := (body ++ OnEvent "thread.message.completed" calls continuation :: tail)%list in
  exists h w',
    stream zsh cbs (initial script) = (Returned h, w')
    /\ Spec.text_before_sentinel (frames (fifo_log w')) = Spec.delta_text cbs
    /\ suggestion h = Shape.all_text cbs
    /\ (forallb Spec.creates_no_text cbs = true ->
        Spec.text_before_sentinel (frames (fifo_log w')) = suggestion h).
Proof.
  intros Hbody Hnone Htail Hquiet Hscript cbs.
  destruct (one_message_is_flat body tail calls continuation Hbody Htail) as [Hflat Hdue].
  destruct (stream_flat_from zsh cbs (initial script) Hflat Hscript) as (w' & E & Hlog & _).
  assert (Hdeltas : Spec.delta_text cbs = Spec.delta_text body).
  { unfold cbs. clear - Hquiet. induction body as [| cb rest IH]; cbn.
    - now apply no_chunks_no_text.
    - destruct cb; cbn; auto. now rewrite IH. }
  assert (Htext : Spec.text_before_sentinel (frames (fifo_log w')) = Spec.delta_text cbs).
  { rewrite Hlog. unfold cbs at 1. rewrite Hdue, (due_without_completed body Hnone).
    cbn [initial fifo_log app frames]. rewrite frames_app, frames_writes.
    rewrite <- app_assoc. cbn [app]. rewrite text_of_chunks. now rewrite Hdeltas. }
  eexists. exists w'. split; [exact E |]. split; [exact Htext |].
  split; [reflexivity |].
  intros Hempty. cbn [suggestion]. rewrite Htext. symmetry.
  now apply text_without_created.
Qed.

End Sink.



(** C8, where the code departs from it: a text block that is created with
    its first words has them gathered by [on_text_created], which writes
    nothing, and again by the first delta, so the suggestion holds them
    twice and the FIFO once. *)
Lemma created_text_is_gathered_not_written :
  ~ (forall (zsh : string -> Llm.proc) (cbs : list Llm.callback) (script : list bool)
            (h : Llm.handler) (w' : Llm.world),
        Llm.stream zsh cbs (Llm.initial script) = (Returned h, w') ->
        Spec.text_before_sentinel (Llm.frames (Llm.fifo_log w')) = Llm.suggestion h).
Proof.
  intros claim.
  specialize (claim Samples.quiet_shell Samples.created_with_text [] _ _ eq_refl).
  discriminate claim.
Qed.

Lemma pipe_text_is_suggestion_witness :
  exists h w',
    Llm.stream Samples.quiet_shell Samples.one_message_run (Llm.initial []) = (Returned h, w')
    /\ Spec.text_before_sentinel (Llm.frames (Llm.fifo_log w')) = "cd /existing_dir"
    /\ Llm.suggestion h = "cd /existing_dir"
    /\ (forallb Spec.creates_no_text Samples.one_message_run = true ->
        Spec.text_before_sentinel (Llm.frames (Llm.fifo_log w')) = Llm.suggestion h).
Proof.
  exact (pipe_text_is_suggestion
           Samples.quiet_shell
           [ Llm.OnEvent "thread.run.created" [] [];
             Llm.OnTextCreated ""; Llm.OnTextDelta "cd "; Llm.OnTextDelta "/existing_dir" ]
           [ Llm.OnEvent "thread.run.completed" [] [] ]
           [] [] [] eq_refl eq_refl eq_refl eq_refl eq_refl).
Defined.

(** ** The batch of tool outputs *)

Section Batch.

Import Llm.

Variable zsh : string -> proc.

(** When the loop over the tool calls gets to its end, it has made one
    output per call, in the order of the calls and under their ids, and
    has neither submitted nor written anything yet. *)
Lemma answers_keep_ids (calls : list tool_call) (w w1 : world) (outs : list tool_output) :
  for_each (answer_tool_call zsh) calls w = (Returned outs, w1) ->
  map tool_call_id outs = map id calls
  /\ submitted w1 = submitted w
  /\ fifo_log w1 = fifo_log w.
Proof.
  revert w w1 outs. induction calls as [| t rest IH]; intros w w1 outs E; cbn in E.
  - run_py. inversion E; subst. auto.
  - unfold answer_tool_call in E. run_py.
    destruct (handle_function_call zsh (function t) w) as [[r | e] w0] eqn:Eh;
      [| discriminate].
    destruct (for_each (answer_tool_call zsh) rest w0) as [[outs0 | e] w2] eqn:Er;
      [| unfold answer_tool_call in Er; run_py; rewrite Er in E; discriminate].
    unfold answer_tool_call in Er. run_py. rewrite Er in E.
    inversion E; subst. clear E.
    assert (Er' : for_each (answer_tool_call zsh) rest w0 = (Returned outs0, w1)).
    { unfold answer_tool_call. run_py. exact Er. }
    destruct (IH _ _ _ Er') as (Hids & Hsub & Hlog).
    assert (Hw0 : submitted w0 = submitted w /\ fifo_log w0 = fifo_log w).
    { clear - Eh. unfold handle_function_call in Eh. run_py.
      assert (Hrun : forall command r0 w3,
                 run_command zsh command w = (Returned r0, w3) ->
                 submitted w3 = submitted w /\ fifo_log w3 = fifo_log w).
      { intros command r0 w3 Hc.
        destruct (run_command_returns zsh command w) as (o & e' & c & Ec).
        rewrite Ec in Hc. inversion Hc; subst. auto. }
      destruct (json_loads (arguments (function t))); [| discriminate].
      destruct (negb (allowed (name (function t)))); [inversion Eh; subst; auto |].
      destruct (is_name (name (function t)) "list_directory").
      { destruct (dict_get a "path" (JStr ".")); [| discriminate].
        destruct (dict_get a "options" (JArr [])); [| discriminate].
        destruct (Str.join_value " " a1); [| discriminate].
        destruct (Shlex.quote a0); [| discriminate]. eauto. }
      destruct (is_name (name (function t)) "print_working_directory"); [eauto |].
      destruct (is_name (name (function t)) "list_processes").
      { destruct (dict_get a "options" (JArr [])); [| discriminate].
        destruct (Str.join_value " " a0); [| discriminate]. eauto. }
      destruct (is_name (name (function t)) "display_file_contents");
        [| inversion Eh; subst; auto].
      destruct (dict_get a "file_path" JNull); [| discriminate].
      destruct (negb (truthy a0)); [inversion Eh; subst; auto |].
      destruct (Shlex.quote a0); [| discriminate]. eauto. }
    destruct Hw0 as [Hsub0 Hlog0]. cbn [map tool_call_id].
    rewrite Hids, Hsub, Hlog, Hsub0, Hlog0. auto.
Qed.

(** A batch whose arguments all fit the descriptors is answered to the
    end. *)
Lemma conforming_batch_is_answered (calls : list tool_call) (w : world) :
  Forall (fun t => Spec.conforms (function t) = true) calls ->
  exists outs w1, for_each (answer_tool_call zsh) calls w = (Returned outs, w1).
Proof.
  intros Hall. revert w. induction Hall as [| t rest Ht Hrest IH]; intros w; cbn.
  - run_py. eauto.
  - destruct (conforming_call_returns zsh (function t) w Ht) as (r & w0 & Eh).
    destruct (IH w0) as (outs & w1 & Er).
    unfold answer_tool_call in *. run_py. rewrite Eh, Er. eauto.
Qed.

(** Such a batch is submitted once and whole: when the engine streams
    nothing back, [handle_requires_action] returns having added one
    batch to what was submitted, with one output per call and the ids
    of the calls in their order. *)
Lemma conforming_batch_is_submitted (calls : list tool_call) (w : world) :
  Forall (fun t => Spec.conforms (function t) = true) calls ->
  exists outs w',
    handle_requires_action zsh (until_done zsh) calls [] w = (Returned tt, w')
    /\ submitted w' = (submitted w ++ [outs])%list
    /\ map tool_call_id outs = map id calls
    /\ List.length outs = List.length calls.
Proof.
  intros Hall.
  destruct (conforming_batch_is_answered w Hall) as (outs & w1 & E).
  destruct (answers_keep_ids _ _ E) as (Hids & Hsub & _).
  exists outs.
  unfold handle_requires_action, submit_tool_outputs, new_handler, submit, del.
  run_py. rewrite E.
  assert (Hlen : List.length outs = List.length calls).
  { rewrite <- (length_map tool_call_id outs), Hids. apply length_map. }
  unfold next_io. destruct (io_script w1) as [| ok script];
    [| destruct ok]; cbn; eexists; (split; [reflexivity |]); cbn; rewrite Hsub; auto.
Qed.

(** C5. Claimed: every batch of N tool calls is answered by one batch of
    N outputs under the ids of the calls. Evaluated on a batch of two
    whose second call has an arguments text that is not JSON: the first
    call is run, the second raises out of the loop, and nothing is
    submitted. (A batch whose dispatches all return is submitted whole
    and under its ids, [answers_keep_ids] and
    [conforming_batch_is_submitted].) *)
Theorem garbled_call_blocks_the_batch (continuation : list callback) (w : world) :
  let after := handle_requires_action zsh (until_done zsh)
                                      Samples.batch_with_garbled continuation w in
  after = (Raised JSONDecodeError, log_spawn "pwd" w)
  /\ submitted (snd after) = submitted w.
Proof.
  cbn zeta.
  assert (E0 : handle_requires_action zsh (until_done zsh)
                                      Samples.batch_with_garbled continuation w
               = (Raised JSONDecodeError, log_spawn "pwd" w)).
  { unfold handle_requires_action, Samples.batch_with_garbled.
    cbn [for_each]. unfold answer_tool_call. run_py.
    change (handle_function_call zsh
              (function {| id := "call_1"; function := Samples.pwd_call |}) w)
      with (run_command zsh "pwd" w).
    destruct (run_command_returns zsh "pwd" w) as (out & err & code & E).
    rewrite E. reflexivity. }
  rewrite E0. split; reflexivity.
Qed.

(** [process_run] on a run that requires action is the same loop and the
    same single submission as [handle_requires_action]; on any other run
    it does nothing. *)
Lemma process_run_as_handler (r : run) (w : world) :
  process_run zsh r w
  = if String.eqb (status r) "requires_action"
       && String.eqb (required_action_type r) "submit_tool_outputs"
    then handle_requires_action zsh (until_done zsh) (run_tool_calls r) (run_continuation r) w
    else (Returned tt, w).
Proof.
  unfold process_run, handle_requires_action.
  destruct (String.eqb (status r) "requires_action"
            && String.eqb (required_action_type r) "submit_tool_outputs"); reflexivity.
Qed.

End Batch.

(** Two calls in one batch, [print_working_directory] and [list_processes]:
    both are run and both outputs go out together, under the ids of the
    calls. *)
Lemma two_calls_one_submission :
  Llm.handle_requires_action Samples.quiet_shell (Llm.until_done Samples.quiet_shell)
                             Samples.batch_of_two [] (Llm.initial [])
  = (Returned tt,
     {| Llm.spawned := ["pwd"; "ps "];
        Llm.fifo_log := [Llm.FifoOpen; Llm.FifoClose];
        Llm.submitted := [[ {| Llm.tool_call_id := "call_1"; Llm.output := "" |};
                            {| Llm.tool_call_id := "call_2"; Llm.output := "" |} ]];
        Llm.io_script := [];
        Llm.buffers := [] |}).
Proof. reflexivity. Qed.

(** A request for [delete_all_files] with arguments that decode: the error
    result, and nothing is spawned. *)
Lemma delete_all_files_is_rejected :
  Llm.handle_function_call Samples.quiet_shell Samples.delete_all_files (Llm.initial [])
  = (Returned (Llm.Error "Function 'delete_all_files' is not allowed."), Llm.initial [])
  /\ Llm.is_error (Llm.Error "Function 'delete_all_files' is not allowed.") = true.
Proof. split; reflexivity. Qed.

(** ** The exit status *)

Section ExitStatus.

Import Llm.

Variable zsh : string -> proc.

(** Where [create_assistant_if_not_exists] ends the process. *)
Lemma assistant_or_exit (s : session) :
  create_assistant_if_not_exists s
  = if Spec.assistant_obtained s then None else Some 1%Z.
Proof.
  unfold create_assistant_if_not_exists, Spec.assistant_obtained.
  destruct (config_assistant_id s) as [assistant_id |];
    [destruct (negb (String.eqb assistant_id "")); cbn [orb]; [reflexivity |] |];
    destruct (assistants_create s); reflexivity.
Qed.

(** [main] once the command has been run and has reported a status that
    is not zero. *)
Lemma main_after_failed_command (s : session) (w : world)
      (stdout stderr : string) (exit_status : Z) :
  (2 <= List.length (argv s))%nat ->
  fst (execute_shell_command zsh (user_command s) w) = Returned (stdout, stderr, exit_status) ->
  exit_status <> 0%Z ->
  fst (main zsh s w)
  = if Spec.engine_answers zsh s (log_spawn (user_command s) w) then exit_status else 1%Z.
Proof.
  intros Hargv Hcmd Hfailed. unfold main, Spec.engine_answers.
  apply Nat.ltb_ge in Hargv. rewrite Hargv.
  destruct (execute_shell_command_returns zsh (user_command s) w) as (out & err & code & E).
  rewrite E in Hcmd. cbn [fst] in Hcmd. inversion Hcmd; subst. clear Hcmd.
  rewrite E. apply Z.eqb_neq in Hfailed. rewrite Hfailed. cbn [negb].
  rewrite assistant_or_exit.
  destruct (Spec.assistant_obtained s); [| reflexivity]. cbn [andb].
  destruct (gather_error_details s (log_spawn (user_command s) w)) as [[[] | e] w2];
    [| reflexivity].
  cbn [fst snd returns andb]. unfold create_thread.
  destruct (threads_create s); [| reflexivity]. cbn [returns andb].
  unfold initiate_run.
  destruct (stream zsh (run_stream s) w2) as [[h | e] w3]; reflexivity.
Qed.


End ExitStatus.



(** ** The catalog offered and the catalog enforced *)

(** C9 as amended. In both adapters the names offered to the engine are
    the names the dispatcher lets through, and what is offered under a name
    has the content of that name's entry in [ALLOWED_FUNCTIONS], which is
    the same text in the two modules. They are not one object throughout:
    llm_debugger.py offers the descriptors of a literal written out in
    [create_assistant], equal in content to the entries of the registry
    and distinct from them; ollama_debugger.py offers the objects of its
    registry themselves and lets names through by [AVAILABLE_FUNCTIONS],
    another table with the same keys. *)
Theorem catalogs_agree_in_content :
  Ollama.ALLOWED_FUNCTIONS = Llm.ALLOWED_FUNCTIONS
  /\ map fst Ollama.AVAILABLE_FUNCTIONS = map fst Ollama.ALLOWED_FUNCTIONS
  /\ map (fun t : json => match t with
                          | JObj fields => lookup "function" fields
                          | _ => None
                          end) Llm.create_assistant_tools
     = map (fun entry => Some (snd entry)) Llm.ALLOWED_FUNCTIONS
  /\ Ollama.tools = map snd Llm.ALLOWED_FUNCTIONS
  /\ (exists c h,
         Objects.loaded Objects.llm_debugger = Some (c, h)
         /\ map fst (Objects.advertised c) = map fst (Objects.accepted c)
         /\ Forall (fun n => Objects.same_content h (Objects.accepted c) (Objects.advertised c) n
                             /\ Objects.same_object (Objects.accepted c) (Objects.advertised c) n
                                = false)
                   (map fst Llm.ALLOWED_FUNCTIONS))
  /\ (exists c h,
         Objects.loaded Objects.ollama_debugger = Some (c, h)
         /\ map fst (Objects.advertised c) = map fst (Objects.accepted c)
         /\ Forall (fun n => Objects.same_object (Objects.registry c) (Objects.advertised c) n
                             = true
                             /\ Objects.same_object (Objects.accepted c) (Objects.advertised c) n
                                = false)
                   (map fst Ollama.ALLOWED_FUNCTIONS)).
Proof.
  split; [reflexivity |]. split; [reflexivity |]. split; [reflexivity |].
  split; [reflexivity |]. split.
  - eexists. eexists. split; [vm_compute; reflexivity |]. split; [reflexivity |].
    repeat constructor;
      (eexists; eexists; eexists;
       split; [reflexivity |]; split; [reflexivity |]; split; reflexivity).
  - eexists. eexists. split; [vm_compute; reflexivity |]. split; [reflexivity |].
    repeat constructor.
Qed.

(** C9, where the code departs from it: in llm_debugger.py the descriptor
    offered under [list_directory] is not the object the dispatcher's
    registry holds under that name. *)
Lemma offered_descriptor_is_another_object :
  ~ (forall n : string,
        contains n Llm.ALLOWED_FUNCTIONS = true ->
        forall c h,
          Objects.loaded Objects.llm_debugger = Some (c, h) ->
          Objects.same_object (Objects.accepted c) (Objects.advertised c) n = true).
Proof.
  intros claim.
  specialize (claim "list_directory" eq_refl _ _ eq_refl).
  discriminate claim.
Qed.

(** What the difference amounts to: a change made to an entry of
    [ALLOWED_FUNCTIONS] shows in what ollama_debugger.py offers and does
    not show in what llm_debugger.py offers. *)
Lemma change_of_registry_entry (d : json) :
  (forall c h a b,
      Objects.loaded Objects.llm_debugger = Some (c, h) ->
      lookup "list_directory" (Objects.registry c) = Some a ->
      lookup "list_directory" (Objects.advertised c) = Some b ->
      Objects.deref (Objects.store h a (Objects.DictObject d)) b = Objects.deref h b)
  /\ (forall c h a b,
         Objects.loaded Objects.ollama_debugger = Some (c, h) ->
         lookup "list_directory" (Objects.registry c) = Some a ->
         lookup "list_directory" (Objects.advertised c) = Some b ->
         Objects.deref (Objects.store h a (Objects.DictObject d)) b
         = Some (Objects.DictObject d)).
Proof.
  split; intros c h a b Hloaded Ha Hb;
    vm_compute in Hloaded; inversion Hloaded; subst; clear Hloaded;
    vm_compute in Ha, Hb; inversion Ha; inversion Hb; subst; reflexivity.
Qed.

(** ** The conversation of the two-call variant *)

Section Conversation.

Import Ollama.

Variable env : environment.

(** A [try] whose handler returns a text returns, and keeps the requests
    when its body does. *)
Lemma try_except_returns (body : M world string) (text : exn -> string) (w : world) :
  (forall o w', body w = (o, w') -> requests w' = requests w) ->
  exists r w',
    try_except body (fun e => ret (text e)) w = (Returned r, w')
    /\ requests w' = requests w.
Proof.
  intros Hkeeps. unfold try_except.
  destruct (body w) as [[r | e] w']; pose proof (Hkeeps _ _ eq_refl); run_py; eauto.
Qed.

Lemma run_logged_keeps_requests (failure : string) (cmd : list json) (shell : bool)
      (w w' : world) (o : outcome string) :
  run_logged env failure cmd shell w = (o, w') -> requests w' = requests w.
Proof.
  unfold run_logged. run_py.
  destruct (Str.all_str 0 cmd) as [argv | e]; [| now inversion 1].
  destruct (subprocess_run env argv shell); inversion 1; reflexivity.
Qed.

Lemma list_add_then_run_keeps_requests (failure : string) (head : list json)
      (options : json) (shell : bool) (w w' : world) (o : outcome string) :
  (cmd <- lift (list_add head options) ;; run_logged env failure cmd shell) w = (o, w') ->
  requests w' = requests w.
Proof.
  run_py. destruct (list_add head options) as [cmd | e]; [| now inversion 1].
  apply run_logged_keeps_requests.
Qed.

(** Calling one of the four functions returns or raises with the
    requests as they were. *)
Lemma call_keeps_requests (f : tool) (args : list json) (w w' : world) (o : outcome string) :
  call env f args w = (o, w') -> requests w' = requests w.
Proof.
  assert (Hraise : forall e, @raise world string e w = (o, w') -> requests w' = requests w)
    by (intros e; unfold raise; now inversion 1).
  assert (Hlisting : forall path options,
             list_directory env path options w = (o, w') -> requests w' = requests w).
  { intros path options. unfold list_directory. intros E.
    match type of E with
    | try_except ?body _ _ = _ =>
        destruct (try_except_returns body (fun e => "Unexpected error: " ++ str_exn e) w)
          as (r & w1 & E1 & H1)
    end.
    - intros o1 w1. destruct (String.eqb (platform_system env) "Windows");
        apply list_add_then_run_keeps_requests.
    - rewrite E1 in E. now inversion E; subst. }
  assert (Hprocesses : forall options,
             list_processes env options w = (o, w') -> requests w' = requests w).
  { intros options. unfold list_processes. intros E.
    match type of E with
    | try_except ?body _ _ = _ =>
        destruct (try_except_returns body (fun e => "Unexpected error: " ++ str_exn e) w)
          as (r & w1 & E1 & H1)
    end.
    - intros o1 w1. destruct (String.eqb (platform_system env) "Windows");
        apply list_add_then_run_keeps_requests.
    - rewrite E1 in E. now inversion E; subst. }
  assert (Hcwd : print_working_directory env w = (o, w') -> requests w' = requests w).
  { unfold print_working_directory. run_py.
    destruct (getcwd env); now inversion 1. }
  assert (Hfile : forall file_path,
             display_file_contents env file_path w = (o, w') -> requests w' = requests w).
  { intros file_path. unfold display_file_contents. run_py.
    destruct file_path; try (destruct (open_other env _); now inversion 1).
    destruct (open_read env s); now inversion 1. }
  unfold call.
  destruct f; destruct args as [| a [| b [| c rest]]]; eauto.
Qed.

(** Every tool call gets a text, whatever its name and arguments are. *)
Lemma function_response_returns (t : tool_request) (w : world) :
  exists r w',
    function_response env t w = (Returned r, w') /\ requests w' = requests w.
Proof.
  unfold function_response.
  destruct (lookup (function_name t) AVAILABLE_FUNCTIONS) as [f |].
  - apply try_except_returns. intros o w'.
    destruct (String.eqb (function_name t) "list_directory").
    { run_py. destruct (subscript (function_arguments t) "path"); [| now inversion 1].
      apply call_keeps_requests. }
    destruct (String.eqb (function_name t) "print_working_directory");
      [apply call_keeps_requests |].
    destruct (String.eqb (function_name t) "list_processes");
      [apply call_keeps_requests |].
    destruct (String.eqb (function_name t) "display_file_contents").
    { run_py. destruct (subscript (function_arguments t) "file_path"); [| now inversion 1].
      apply call_keeps_requests. }
    run_py. now inversion 1.
  - run_py. eauto.
Qed.

(** The loop appends one message per tool call, in the order of the
    calls, each with the role ['tool'] and the text, and nothing else. *)
Lemma process_tool_calls_appends (calls : list tool_request) (messages : list entry)
      (w : world) :
  exists responses w',
    process_tool_calls env calls messages w
    = (Returned (messages
                 ++ map (fun r => Dict [("role", JStr "tool"); ("content", JStr r)]) responses)%list,
       w')
    /\ requests w' = requests w
    /\ Forall2 (fun t r => exists w0 w1, function_response env t w0 = (Returned r, w1))
               calls responses.
Proof.
  revert messages w. induction calls as [| t rest IH]; intros messages w.
  - exists [], w. cbn. rewrite app_nil_r. run_py. auto.
  - destruct (function_response_returns t w) as (r & w1 & E & Hreq).
    destruct (IH (messages ++ [tool_message r])%list w1) as (responses & w' & E' & Hreq' & Hall).
    exists (r :: responses), w'. cbn [process_tool_calls]. run_py. rewrite E, E'.
    unfold tool_message. cbn [map]. rewrite <- app_assoc. cbn [app].
    split; [reflexivity |]. split; [congruence |].
    constructor; eauto.
Qed.

End Conversation.

Section History.

Import Ollama.

Variable env : environment.

(** C10. In the two-call variant, when the first answer asks for tools,
    the second call is made with the opening conversation, the answer
    of the model, and after it one message per tool call in the order of
    the calls, each being the dict with the role ['tool'] and the text of
    the result and no other key, whether the name was allowed or not. *)
Theorem tool_results_join_history_by_position (details : error_details) (response : reply) :
  chat env (Spec.opening details) (Some tools) = Returned response ->
  requested response <> [] ->
  exists responses w',
    run env details initial = (Returned tt, w')
    /\ List.length responses = List.length (requested response)
    /\ Forall2 (fun t r => exists w0 w1, function_response env t w0 = (Returned r, w1))
               (requested response) responses
    /\ requests w'
       = [ (Spec.opening details, Some tools);
           ((Spec.opening details
             ++ Message response
             :: map (fun r => Dict [("role", JStr "tool"); ("content", JStr r)]) responses)%list,
            None) ].
Proof.
  intros Hchat Hcalls.
  set (history := (Spec.opening details ++ [Message response])%list).
  set (w1 := log_request (Spec.opening details) (Some tools) initial).
  destruct (process_tool_calls_appends env (requested response) history w1)
    as (responses & w2 & E & Hreq & Hall).
  exists responses.
  assert (Hrun : run env details initial
                 = try_except
                     (final_response <- client_chat env
                                          (history ++ map (fun r => Dict [("role", JStr "tool");
                                                                          ("content", JStr r)])
                                                          responses)%list None ;;
                      print (content final_response))
                     (fun e => print_err ("Error communicating with the model: " ++ str_exn e))
                     w2).
  { unfold run. fold (Spec.opening details). unfold client_chat at 1. run_py.
    rewrite Hchat. fold history. fold w1.
    destruct (requested response) as [| t rest] eqn:Hrequested; [contradiction |].
    rewrite E. reflexivity. }
  rewrite Hrun. unfold client_chat, print, print_err. run_py.
  destruct (chat env _ None) as [final | e];
    (eexists; split; [reflexivity |]; split; [symmetry; eapply Forall2_length; exact Hall |];
     split; [exact Hall |]; cbn [requests log_request]; rewrite Hreq; unfold history;
     rewrite <- app_assoc; reflexivity).
Qed.

End History.

Lemma tool_results_join_history_by_position_witness :
  exists responses w',
    Ollama.run Samples.ollama_environment Samples.cd_failed Ollama.initial = (Returned tt, w')
    /\ List.length responses = 2%nat
    /\ Forall2 (fun t r => exists w0 w1,
                    Ollama.function_response Samples.ollama_environment t w0 = (Returned r, w1))
               (Ollama.requested Samples.two_requests) responses
    /\ Ollama.requests w'
       = [ (Spec.opening Samples.cd_failed, Some Ollama.tools);
           ((Spec.opening Samples.cd_failed
             ++ Ollama.Message Samples.two_requests
             :: map (fun r => Ollama.Dict [("role", JStr "tool"); ("content", JStr r)])
                    responses)%list,
            None) ].
Proof.
  assert (Hcalls : Ollama.requested Samples.two_requests <> []) by discriminate.
  exact (tool_results_join_history_by_position
           Samples.ollama_environment Samples.cd_failed eq_refl Hcalls).
Defined.

(* ===================================================================== *)
(** * Further properties of the code                                      *)
(* ===================================================================== *)

(** ** The dispatcher, case by case *)

Section DispatcherCases.

Import Llm.

Variable zsh : string -> proc.

(** One step of a proof that follows [handle_function_call] through its
    branches, in the goal and in a hypothesis. *)
Ltac dispatch_step w :=
  match goal with
  | |- context [run_command zsh ?command w] =>
      let E := fresh "E" in
      destruct (run_command_returns zsh command w) as (? & ? & ? & E); rewrite E
  | |- context [match ?x with Returned _ => _ | Raised _ => _ end] => destruct x
  | |- context [if ?b then _ else _] => destruct b
  end.

Ltac dispatch_step_in H w :=
  match type of H with
  | context [run_command zsh ?command w] =>
      let E := fresh "E" in
      destruct (run_command_returns zsh command w) as (? & ? & ? & E); rewrite E in H
  | context [match ?x with Returned _ => _ | Raised _ => _ end] => destruct x
  | context [if ?b then _ else _] => destruct b
  end.

Lemma dispatch_changes_spawned_only (fc : function_call) (w w' : world)
      (o : outcome dispatch_result) :
  handle_function_call zsh fc w = (o, w') ->
  match o with
  | Returned (Output _ _ _) => exists command, w' = log_spawn command w
  | Returned (Error _) => w' = w
  | Raised _ => w' = w
  end.
Proof.
  unfold handle_function_call. run_py. intros H.
  repeat dispatch_step_in H w; inversion H; subst; eauto.
Qed.


(** X2. The error results of the dispatcher are of two kinds, and the world is
    as it was: the name is not registered, or [display_file_contents] has
    no usable [file_path]. The message of the last [else] is never
    given. *)
Theorem dispatch_errors_are_of_two_kinds (fc : function_call) (w w' : world) (message : string) :
  handle_function_call zsh fc w = (Returned (Error message), w') ->
  w' = w
  /\ ((allowed (name fc) = false
       /\ message = "Function '" ++ show_name (name fc) ++ "' is not allowed.")
      \/ (is_name (name fc) "display_file_contents" = true
          /\ message = "Missing 'file_path' argument.")).
Proof.
  unfold handle_function_call. run_py.
  destruct (json_loads (arguments fc)) as [a | e]; [| discriminate].
  destruct (allowed (name fc)) eqn:Hallowed; cbn [negb].
  2: { intros E. inversion E; subst. auto. }
  destruct (is_name (name fc) "list_directory") eqn:Hls.
  { repeat (dispatch_step w; try discriminate). }
  destruct (is_name (name fc) "print_working_directory") eqn:Hpwd.
  { repeat (dispatch_step w; try discriminate). }
  destruct (is_name (name fc) "list_processes") eqn:Hps.
  { repeat (dispatch_step w; try discriminate). }
  destruct (is_name (name fc) "display_file_contents") eqn:Hcat.
  - destruct (dict_get a "file_path" JNull) as [v | e]; [| discriminate].
    destruct (negb (truthy v)).
    + intros E. inversion E; subst. auto.
    + repeat (dispatch_step w; try discriminate).
  - exfalso. clear - Hallowed Hls Hpwd Hps Hcat.
    destruct (name fc) as [n |]; [| discriminate].
    unfold allowed, contains, ALLOWED_FUNCTIONS in Hallowed. cbn [lookup] in Hallowed.
    unfold is_name in *.
    rewrite Hls, Hpwd, Hps, Hcat in Hallowed. discriminate.
Qed.

(** X3. A name that is not registered is never run, whatever its arguments;
    when the arguments text decodes the answer is the error result with
    the name in it. *)
Theorem unregistered_name_is_never_run (fc : function_call) (w : world) :
  allowed (name fc) = false ->
  snd (handle_function_call zsh fc w) = w
  /\ (forall v,
         json_loads (arguments fc) = Returned v ->
         fst (handle_function_call zsh fc w)
         = Returned (Error ("Function '" ++ show_name (name fc) ++ "' is not allowed."))).
Proof.
  intros Hname. split.
  - apply not_allowed_spawns_nothing. exact Hname.
  - intros v Hargs. now rewrite (not_allowed_rejected zsh fc w Hname Hargs).
Qed.

(** X4. Arguments that fit the descriptors never make the dispatcher raise. *)
Theorem fitting_arguments_never_raise (fc : function_call) (w : world) :
  Spec.conforms fc = true ->
  returns (fst (handle_function_call zsh fc w)) = true.
Proof.
  intros Hfits.
  destruct (conforming_call_returns zsh fc w Hfits) as (r & w' & E).
  now rewrite E.
Qed.

(** X5. [display_file_contents] with a [file_path] that is there and falsy
    (an empty string, zero, [false], [null], an empty list or dict) is
    answered like one without: the error result, and nothing is run. *)
Theorem falsy_file_path_counts_as_missing
        (fc : function_call) (args : list (string * json)) (v : json) (w : world) :
  name fc = Some "display_file_contents" ->
  arguments fc = Some (Encodes (JObj args)) ->
  lookup "file_path" args = Some v ->
  truthy v = false ->
  handle_function_call zsh fc w = (Returned (Error "Missing 'file_path' argument."), w).
Proof.
  intros Hname Hargs Hfield Hfalsy. unfold handle_function_call. run_py.
  rewrite Hname, Hargs.
  change (allowed (Some "display_file_contents")) with true.
  cbn [negb json_loads is_name String.eqb Ascii.eqb Bool.eqb].
  unfold dict_get. now rewrite Hfield, Hfalsy.
Qed.

(** [print_working_directory] does not look at its arguments: whatever
    value the text decodes to, the command is [pwd]. *)
Theorem pwd_ignores_its_arguments (fc : function_call) (v : json) (w : world) :
  name fc = Some "print_working_directory" ->
  json_loads (arguments fc) = Returned v ->
  handle_function_call zsh fc w = run_command zsh "pwd" w.
Proof.
  intros Hname Hargs. unfold handle_function_call. run_py.
  now rewrite Hname, Hargs.
Qed.

End DispatcherCases.

Lemma unregistered_name_is_never_run_witness :
  snd (Llm.handle_function_call Samples.quiet_shell Samples.delete_all_files_garbled
                                (Llm.initial []))
  = Llm.initial []
  /\ fst (Llm.handle_function_call Samples.quiet_shell Samples.delete_all_files (Llm.initial []))
     = Returned (Llm.Error "Function 'delete_all_files' is not allowed.").
Proof.
  split.
  - exact (proj1 (unregistered_name_is_never_run
                    Samples.quiet_shell Samples.delete_all_files_garbled (Llm.initial [])
                    eq_refl)).
  - exact (proj2 (unregistered_name_is_never_run
                    Samples.quiet_shell Samples.delete_all_files (Llm.initial []) eq_refl)
                 (JObj []) eq_refl).
Defined.

Lemma dispatch_errors_are_of_two_kinds_witness :
  Llm.initial [] = Llm.initial []
  /\ ((Llm.allowed (Llm.name Samples.cat_without_path) = false
       /\ "Missing 'file_path' argument."
          = "Function '" ++ Llm.show_name (Llm.name Samples.cat_without_path)
            ++ "' is not allowed.")
      \/ (Llm.is_name (Llm.name Samples.cat_without_path) "display_file_contents" = true
          /\ "Missing 'file_path' argument." = "Missing 'file_path' argument.")).
Proof.
  exact (dispatch_errors_are_of_two_kinds
           Samples.quiet_shell Samples.cat_without_path (Llm.initial []) eq_refl).
Defined.

Lemma fitting_arguments_never_raise_witness :
  returns (fst (Llm.handle_function_call
                  Samples.quiet_shell
                  (Samples.call "list_directory"
                                [("path", JStr "/tmp/a b"); ("options", JArr [JStr "-la"])])
                  (Llm.initial [])))
  = true.
Proof.
  exact (fitting_arguments_never_raise
           Samples.quiet_shell
           (Samples.call "list_directory"
                         [("path", JStr "/tmp/a b"); ("options", JArr [JStr "-la"])])
           (Llm.initial []) eq_refl).
Defined.

Lemma falsy_file_path_counts_as_missing_witness :
  Llm.handle_function_call
    Samples.quiet_shell (Samples.call "display_file_contents" [("file_path", JStr "")])
    (Llm.initial [])
  = (Returned (Llm.Error "Missing 'file_path' argument."), Llm.initial []).
Proof.
  exact (falsy_file_path_counts_as_missing
           Samples.quiet_shell
           (Samples.call "display_file_contents" [("file_path", JStr "")])
           (Llm.initial []) eq_refl eq_refl eq_refl eq_refl).
Defined.

Lemma pwd_ignores_its_arguments_witness :
  Llm.handle_function_call
    Samples.quiet_shell
    {| Llm.name := Some "print_working_directory";
       Llm.arguments := Some (Llm.Encodes (JArr [JNum 1])) |}
    (Llm.initial [])
  = Llm.run_command Samples.quiet_shell "pwd" (Llm.initial []).
Proof.
  exact (pwd_ignores_its_arguments
           Samples.quiet_shell
           {| Llm.name := Some "print_working_directory";
              Llm.arguments := Some (Llm.Encodes (JArr [JNum 1])) |}
           (Llm.initial []) eq_refl eq_refl).
Defined.

(** ** [shlex.quote] *)

Section Quoting.

Lemma replace_quote_injective (a b : string) :
  Str.replace_char "'" Shlex.escaped_quote a = Str.replace_char "'" Shlex.escaped_quote b ->
  a = b.
Proof.
  revert b. induction a as [| x a IH]; intros [| y b]; cbn.
  - reflexivity.
  - destruct (Ascii.eqb y "'"); discriminate.
  - destruct (Ascii.eqb x "'"); discriminate.
  - destruct (Ascii.eqb_spec x "'") as [Hx | Hx], (Ascii.eqb_spec y "'") as [Hy | Hy].
    + subst. cbn. intros H. injection H as H. f_equal. now apply IH.
    + subst. cbn. intros H. injection H as Hhead _. congruence.
    + subst. cbn. intros H. injection H as Hhead _. congruence.
    + intros H. injection H as Hhead Htail. subst. f_equal. now apply IH.
Qed.

Lemma append_quote_cancel (a b : string) : a ++ "'" = b ++ "'" -> a = b.
Proof.
  revert b. induction a as [| x a IH]; intros [| y b]; cbn.
  - reflexivity.
  - intros H. injection H as _ H. destruct b; discriminate.
  - intros H. injection H as _ H. destruct a; discriminate.
  - intros H. injection H as Hhead Htail. subst. f_equal. now apply IH.
Qed.

Lemma replace_of_nonempty (s : string) :
  s <> "" -> Str.replace_char "'" Shlex.escaped_quote s <> "".
Proof.
  destruct s as [| c s]; [congruence |]. intros _. cbn.
  destruct (Ascii.eqb c "'"); discriminate.
Qed.

(** [shlex.quote] never gives the same text for two different strings:
    what goes into the command line determines the path it was made
    from. *)
Theorem quote_is_injective (a b : string) :
  Shlex.quote_str a = Shlex.quote_str b -> a = b.
Proof.
  unfold Shlex.quote_str.
  destruct (String.eqb_spec a "") as [Ha | Ha], (String.eqb_spec b "") as [Hb | Hb].
  - congruence.
  - subst a. destruct (Shlex.all_safe b) eqn:Hsafe.
    + intros H. subst b. discriminate Hsafe.
    + pose proof (replace_of_nonempty Hb) as Hne.
      set (r := Str.replace_char "'" Shlex.escaped_quote b) in *.
      cbn. intros H. injection H as H.
      destruct r as [| c r]; [congruence |].
      cbn in H. injection H as _ H. destruct r; discriminate.
  - subst b. destruct (Shlex.all_safe a) eqn:Hsafe.
    + intros H. subst a. discriminate Hsafe.
    + pose proof (replace_of_nonempty Ha) as Hne.
      set (r := Str.replace_char "'" Shlex.escaped_quote a) in *.
      cbn. intros H. injection H as H.
      destruct r as [| c r]; [congruence |].
      cbn in H. injection H as _ H. destruct r; discriminate.
  - destruct (Shlex.all_safe a) eqn:Hsa, (Shlex.all_safe b) eqn:Hsb.
    + trivial.
    + intros H. subst a. discriminate Hsa.
    + intros H. subst b. discriminate Hsb.
    + set (ra := Str.replace_char "'" Shlex.escaped_quote a).
      set (rb := Str.replace_char "'" Shlex.escaped_quote b).
      cbn. intros H. injection H as H.
      apply replace_quote_injective, append_quote_cancel. exact H.
Qed.

End Quoting.

Lemma quote_is_injective_witness : "it's" = "it's".
Proof.
  exact (quote_is_injective "it's" "it's" eq_refl).
Defined.

(** ** Flat streams on any FIFO *)

Section WholeStreams.

Import Llm.

Variable zsh : string -> proc.

(** X7. Whatever the writes do, a flat stream ends with all the text of its
    [on_text_created] and [on_text_delta] callbacks gathered in the
    suggestion, in order; nothing is spawned or submitted, and the FIFO
    sees at most an open, the frames asked for and a close. *)
Theorem suggestion_gathers_every_text (cbs : list callback) (script : list bool) :
  forallb Shape.flat cbs = true ->
  exists h w',
    stream zsh cbs (initial script) = (Returned h, w')
    /\ suggestion h = Shape.all_text cbs
    /\ spawned w' = []
    /\ submitted w' = []
    /\ (List.length (fifo_log w') <= 2 + List.length (Shape.frames_due cbs))%nat.
Proof.
  intros Hflat. unfold stream, new_handler.
  destruct (next_io (initial script)) as [ok w0] eqn:E0.
  assert (Hw0 : spawned w0 = [] /\ submitted w0 = [] /\ fifo_log w0 = []).
  { unfold next_io in E0. cbn in E0. destruct script; inversion E0; subst; auto. }
  destruct Hw0 as (Hsp0 & Hsub0 & Hlog0).
  destruct ok.
  - set (h0 := {| suggestion := ""; fifo := true |}).
    set (wa := set_buffers ([] :: buffers w0) (log_fifo FifoOpen w0)).
    destruct (until_done_flat zsh cbs h0 wa Hflat) as (w1 & E1 & Hsp1 & Hsub1 & Hlen1).
    destruct (del_is_quiet h0 w1) as (w2 & E2 & Hsp2 & Hsub2 & Hlen2).
    eexists. exists w2. split.
    + unfold bind at 1. rewrite E0. cbn iota beta. fold wa.
      unfold finalized. rewrite E1, E2. reflexivity.
    + subst wa. unfold pending in *.
      cbn [suggestion fifo h0 set_buffers log_fifo fifo_log spawned submitted buffers hd]
        in *.
      rewrite Hsp2, Hsub2, Hsp1, Hsub1, Hsp0, Hsub0. repeat split; auto.
      rewrite Hlog0 in Hlen1. cbn [List.length app] in Hlen1. lia.
  - set (h0 := {| suggestion := ""; fifo := false |}).
    eexists. eexists. split.
    + unfold bind at 1. rewrite E0. cbn iota beta.
      unfold finalized. rewrite (until_done_flat_unopened zsh cbs h0 w0 Hflat eq_refl).
      reflexivity.
    + cbn. rewrite Hlog0. repeat split; auto. cbn. lia.
Qed.

(** X8. When the FIFO cannot be opened, a flat stream goes through all the
    same: the suggestion is gathered, and the FIFO is neither written nor
    closed, and no later fate of the script is used up. *)
Theorem unopened_fifo_gets_nothing (cbs : list callback) (script : list bool) :
  forallb Shape.flat cbs = true ->
  stream zsh cbs (initial (false :: script))
  = (Returned {| suggestion := Shape.all_text cbs; fifo := false |}, initial script).
Proof.
  intros Hflat. unfold stream, new_handler. unfold bind at 1.
  change (next_io (initial (false :: script))) with (false, initial script).
  cbn iota beta.
  set (h0 := {| suggestion := ""; fifo := false |}).
  unfold finalized.
  rewrite (until_done_flat_unopened zsh cbs h0 (initial script) Hflat eq_refl).
  reflexivity.
Qed.

(** X9. On a FIFO that opens and takes every write, a flat stream gets one
    chunk per text delta and one end marker per
    [thread.message.completed] event, in the order of the callbacks,
    between the open and the close: two messages give two end markers. *)
Theorem one_sentinel_per_completed_message (cbs : list callback) (script : list bool) :
  forallb Shape.flat cbs = true ->
  Spec.all_work script = true ->
  fifo_log (snd (stream zsh cbs (initial script)))
  = (FifoOpen :: map FifoWrite (Shape.frames_due cbs) ++ [FifoClose])%list
  /\ Spec.sentinels (frames (fifo_log (snd (stream zsh cbs (initial script)))))
     = Shape.completed_messages cbs.
Proof.
  intros Hflat Hscript.
  destruct (stream_flat_from zsh cbs (initial script) Hflat Hscript) as (w' & E & Hlog & _).
  rewrite E. cbn [snd]. rewrite Hlog. cbn [initial fifo_log app]. split; [reflexivity |].
  cbn [frames]. rewrite frames_app, frames_writes. cbn [frames].
  rewrite app_nil_r. apply sentinels_due.
Qed.

(** X10. An exception of the client in the middle of a stream without tool
    calls, on a FIFO that works: the frames written so far stay on the
    pipe and nothing is added for the rest of the stream, so a message
    that did not complete gets no end marker; the handler is finalized
    all the same and [__del__] closes the FIFO; and [initiate_run] ends
    the process with status 1. *)
Theorem broken_stream_is_closed_without_marker
        (body rest : list callback) (what : string) (script : list bool) :
  forallb Shape.flat body = true ->
  Spec.all_work script = true ->
  exists w',
    stream zsh (body ++ StreamError what :: rest) (initial script)
    = (Raised (ApiError what), w')
    /\ fifo_log w'
       = (FifoOpen :: map FifoWrite (Shape.frames_due body) ++ [FifoClose])%list
    /\ Spec.sentinels (frames (fifo_log w')) = Shape.completed_messages body
    /\ initiate_run zsh (body ++ StreamError what :: rest) (initial script) = (Some 1%Z, w').
Proof.
  intros Hflat Hscript.
  assert (E : exists w',
             stream zsh (body ++ StreamError what :: rest) (initial script)
             = (Raised (ApiError what), w')
             /\ fifo_log w'
                = (FifoOpen :: map FifoWrite (Shape.frames_due body) ++ [FifoClose])%list).
  { unfold stream, new_handler.
    destruct (next_io_works (initial script) Hscript) as (Hok & Hio0 & Hsp0 & Hlog0 & Hsub0).
    set (h0 := {| suggestion := ""; fifo := true |}).
    destruct (next_io (initial script)) as [ok w0] eqn:E0.
    cbn [fst snd] in Hok, Hio0, Hsp0, Hlog0, Hsub0. subst ok.
    set (wa := set_buffers ([] :: buffers w0) (log_fifo FifoOpen w0)).
    destruct (until_done_flat_working zsh body h0 wa (outer := buffers w0)
                                      Hflat eq_refl Hio0 eq_refl)
      as (w1 & E1 & Hlog1 & _ & _ & _ & Hheld1).
    exists (set_buffers (buffers w0) (log_fifo FifoClose w1)). split.
    - unfold bind at 1. rewrite E0. cbn iota beta. fold wa.
      unfold finalized. rewrite until_done_app.
      unfold bind at 1. rewrite E1. cbn [until_done deliver]. run_py.
      rewrite (del_works h0 w1 (outer := buffers w0) eq_refl Hheld1). reflexivity.
    - cbn [set_buffers log_fifo fifo_log]. rewrite Hlog1. unfold wa.
      cbn [set_buffers log_fifo fifo_log]. rewrite Hlog0.
      cbn [initial fifo_log app]. rewrite <- ?app_assoc. reflexivity. }
  destruct E as (w' & E & Hlog). exists w'. repeat split; auto.
  - rewrite Hlog. cbn [frames]. rewrite frames_app, frames_writes. cbn [frames].
    rewrite app_nil_r. apply sentinels_due.
  - unfold initiate_run. now rewrite E.
Qed.

End WholeStreams.


(** ** A run with a batch of tool calls *)

Section ToolRun.

Import Llm.

Variable zsh : string -> proc.

(** The loop over the tool calls touches nothing but the list of what
    was spawned, however it ends. *)
Lemma answers_touch_spawned_only (calls : list tool_call) (w w1 : world)
      (o : outcome (list tool_output)) :
  for_each (answer_tool_call zsh) calls w = (o, w1) ->
  io_script w1 = io_script w /\ fifo_log w1 = fifo_log w /\ submitted w1 = submitted w
  /\ buffers w1 = buffers w.
Proof.
  revert w w1 o. induction calls as [| t rest IH]; intros w w1 o E; cbn in E.
  - run_py. inversion E; subst. auto.
  - unfold answer_tool_call in E. run_py.
    pose proof (dispatch_changes_spawned_only zsh (function t) w) as Hstep.
    destruct (handle_function_call zsh (function t) w) as [[r | e] w0].
    + specialize (Hstep w0 (Returned r) eq_refl).
      assert (Hw0 : io_script w0 = io_script w /\ fifo_log w0 = fifo_log w
                    /\ submitted w0 = submitted w /\ buffers w0 = buffers w).
      { destruct r; [subst; auto | destruct Hstep as (command & ->); auto]. }
      destruct (for_each (answer_tool_call zsh) rest w0) as [o0 w2] eqn:Er.
      destruct (IH _ _ _ Er) as (Hio & Hlog & Hsub & Hbuf).
      unfold answer_tool_call in Er. run_py. rewrite Er in E.
      destruct Hw0 as (Hio0 & Hlog0 & Hsub0 & Hbuf0).
      destruct o0; inversion E; subst; rewrite Hio, Hlog, Hsub, Hbuf; auto.
    + specialize (Hstep w0 (Raised e) eq_refl). cbn in Hstep. subst.
      inversion E; subst. auto.
Qed.

(** [submit_tool_outputs] with an answer that asks for no further tools,
    on a FIFO that works: one batch more is submitted, and the FIFO sees
    an open, the frames of the answer and a close. *)
Lemma submit_tool_outputs_flat (outs : list tool_output) (continuation : list callback)
      (w : world) :
  forallb Shape.flat continuation = true ->
  Spec.all_work (io_script w) = true ->
  exists w',
    submit_tool_outputs (until_done zsh) outs continuation w = (Returned tt, w')
    /\ submitted w' = (submitted w ++ [outs])%list
    /\ fifo_log w'
       = (fifo_log w
          ++ FifoOpen :: map FifoWrite (Shape.frames_due continuation) ++ [FifoClose])%list
    /\ spawned w' = spawned w
    /\ Spec.all_work (io_script w') = true
    /\ buffers w' = buffers w.
Proof.
  intros Hflat Hscript. unfold submit_tool_outputs, new_handler.
  destruct (next_io_works w Hscript) as (Hok & Hio0 & Hsp0 & Hlog0 & Hsub0).
  pose proof (next_io_keeps_buffers w) as Hbuf0.
  set (h0 := {| suggestion := ""; fifo := true |}).
  destruct (next_io w) as [ok w0] eqn:E0.
  cbn [fst snd] in Hok, Hio0, Hsp0, Hlog0, Hsub0, Hbuf0. subst ok.
  set (wa := log_submit outs (set_buffers ([] :: buffers w0) (log_fifo FifoOpen w0))).
  destruct (until_done_flat_working zsh continuation h0 wa (outer := buffers w0)
                                    Hflat eq_refl Hio0 eq_refl)
    as (w1 & E1 & Hlog1 & Hsp1 & Hsub1 & Hio1 & Hheld1).
  exists (set_buffers (buffers w0) (log_fifo FifoClose w1)). split.
  - unfold bind at 1. rewrite E0. cbn iota beta.
    unfold finalized, submit. run_py. fold wa. rewrite E1.
    rewrite (del_works h0 w1 (outer := buffers w0) eq_refl Hheld1). reflexivity.
  - cbn [set_buffers log_fifo fifo_log spawned submitted io_script buffers].
    rewrite Hlog1, Hsp1, Hsub1. unfold wa.
    cbn [log_submit set_buffers log_fifo fifo_log spawned submitted].
    rewrite Hlog0, Hsp0, Hsub0, <- !app_assoc. cbn [app]. auto 6.
Qed.

(** X11. A run that asks for one batch of tool calls whose arguments fit, and
    then streams its answer, on a FIFO that works: the batch goes out
    once, under the ids of the calls; the answer is written through a
    second handle on the FIFO, opened while the first is open and closed
    before it; and the handler of the run itself ends with an empty
    suggestion, the text being gathered by the inner one. *)
Theorem tool_run_streams_through_inner_handler
        (calls : list tool_call) (continuation : list callback) (script : list bool) :
  Forall (fun t => Spec.conforms (function t) = true) calls ->
  forallb Shape.flat continuation = true ->
  Spec.all_work script = true ->
  exists outs w',
    stream zsh [OnEvent "thread.run.requires_action" calls continuation] (initial script)
    = (Returned {| suggestion := ""; fifo := true |}, w')
    /\ submitted w' = [outs]
    /\ map tool_call_id outs = map id calls
    /\ fifo_log w'
       = ([FifoOpen; FifoOpen] ++ map FifoWrite (Shape.frames_due continuation)
          ++ [FifoClose; FifoClose])%list.
Proof.
  intros Hfit Hflat Hscript.
  unfold stream, new_handler.
  destruct (next_io_works (initial script) Hscript) as (Hok & Hio0 & Hsp0 & Hlog0 & Hsub0).
  pose proof (next_io_keeps_buffers (initial script)) as Hbuf0.
  set (h0 := {| suggestion := ""; fifo := true |}).
  destruct (next_io (initial script)) as [ok w0] eqn:E0.
  cbn [fst snd] in Hok, Hio0, Hsp0, Hlog0, Hsub0, Hbuf0. subst ok.
  set (wa := set_buffers ([] :: buffers w0) (log_fifo FifoOpen w0)).
  destruct (conforming_batch_is_answered zsh wa Hfit) as (outs & w1 & Eloop).
  destruct (answers_keep_ids zsh _ _ Eloop) as (Hids & _ & _).
  destruct (answers_touch_spawned_only _ _ Eloop) as (Hio1 & Hlog1 & Hsub1 & Hbuf1).
  (* the inner stream, opened before the batch is submitted *)
  destruct (submit_tool_outputs_flat outs continuation w1 Hflat) as
    (w2 & E2 & Hsub2 & Hlog2 & _ & _ & Hbuf2); [rewrite Hio1; exact Hio0 |].
  assert (Hheld2 : buffers w2 = [] :: buffers w0) by (now rewrite Hbuf2, Hbuf1).
  exists outs. eexists. split.
  - unfold bind at 1. rewrite E0. cbn iota beta. fold wa.
    unfold finalized. cbn [until_done]. rewrite deliver_on_event.
    unfold on_event. cbn [String.eqb Ascii.eqb Bool.eqb].
    unfold handle_requires_action, handle_general_event.
    run_py. rewrite Eloop, E2.
    rewrite (del_works h0 w2 (outer := buffers w0) eq_refl Hheld2). reflexivity.
  - cbn [set_buffers log_fifo fifo_log submitted].
    rewrite Hlog2, Hsub2, Hlog1, Hsub1. unfold wa.
    cbn [set_buffers log_fifo fifo_log submitted].
    rewrite Hlog0, Hsub0. cbn [initial fifo_log submitted app].
    repeat split; auto. rewrite <- !app_assoc. reflexivity.
Qed.

End ToolRun.

Lemma suggestion_gathers_every_text_witness :
  exists h w',
    Llm.stream Samples.quiet_shell
               [Llm.OnTextCreated "cd"; Llm.OnTextDelta " /x"; Samples.message_completed]
               (Llm.initial [true; false; false])
    = (Returned h, w')
    /\ Llm.suggestion h = "cd /x"
    /\ Llm.spawned w' = []
    /\ Llm.submitted w' = []
    /\ (List.length (Llm.fifo_log w') <= 4)%nat.
Proof.
  exact (suggestion_gathers_every_text
           Samples.quiet_shell
           [Llm.OnTextCreated "cd"; Llm.OnTextDelta " /x"; Samples.message_completed]
           [true; false; false] eq_refl).
Defined.

Lemma unopened_fifo_gets_nothing_witness :
  Llm.stream Samples.quiet_shell Samples.one_message_run (Llm.initial [false])
  = (Returned {| Llm.suggestion := "cd /existing_dir"; Llm.fifo := false |}, Llm.initial []).
Proof.
  exact (unopened_fifo_gets_nothing Samples.quiet_shell Samples.one_message_run [] eq_refl).
Defined.

Lemma one_sentinel_per_completed_message_witness :
  Spec.sentinels
    (Llm.frames
       (Llm.fifo_log
          (snd (Llm.stream Samples.quiet_shell
                           [ Llm.OnTextDelta "ls"; Samples.message_completed;
                             Llm.OnTextDelta "pwd"; Samples.message_completed ]
                           (Llm.initial [])))))
  = 2%nat.
Proof.
  exact (proj2 (one_sentinel_per_completed_message
                  Samples.quiet_shell
                  [ Llm.OnTextDelta "ls"; Samples.message_completed;
                    Llm.OnTextDelta "pwd"; Samples.message_completed ]
                  [] eq_refl eq_refl)).
Defined.

Lemma broken_stream_is_closed_without_marker_witness :
  exists w',
    Llm.stream Samples.quiet_shell
               [Llm.OnTextDelta "ls"; Llm.StreamError "Connection error."]
               (Llm.initial [])
    = (Raised (ApiError "Connection error."), w')
    /\ Llm.fifo_log w' = [Llm.FifoOpen; Llm.FifoWrite (Llm.Chunk "ls"); Llm.FifoClose]
    /\ Spec.sentinels (Llm.frames (Llm.fifo_log w')) = 0%nat
    /\ Llm.initiate_run Samples.quiet_shell
                        [Llm.OnTextDelta "ls"; Llm.StreamError "Connection error."]
                        (Llm.initial [])
       = (Some 1%Z, w').
Proof.
  exact (broken_stream_is_closed_without_marker
           Samples.quiet_shell [Llm.OnTextDelta "ls"] [] "Connection error." [] eq_refl eq_refl).
Defined.

Lemma tool_run_streams_through_inner_handler_witness :
  exists outs w',
    Llm.stream Samples.quiet_shell
               [Llm.OnEvent "thread.run.requires_action" Samples.batch_of_two
                            [Llm.OnTextDelta "cd /existing_dir"; Samples.message_completed]]
               (Llm.initial [])
    = (Returned {| Llm.suggestion := ""; Llm.fifo := true |}, w')
    /\ Llm.submitted w' = [outs]
    /\ map Llm.tool_call_id outs = ["call_1"; "call_2"]
    /\ Llm.fifo_log w'
       = [ Llm.FifoOpen; Llm.FifoOpen;
           Llm.FifoWrite (Llm.Chunk "cd /existing_dir"); Llm.FifoWrite Llm.Sentinel;
           Llm.FifoClose; Llm.FifoClose ].
Proof.
  assert (Hfit : Forall (fun t => Spec.conforms (Llm.function t) = true) Samples.batch_of_two)
    by (repeat constructor).
  exact (tool_run_streams_through_inner_handler
           Samples.quiet_shell
           [Llm.OnTextDelta "cd /existing_dir"; Samples.message_completed]
           [] Hfit eq_refl eq_refl).
Defined.

(** ** The whole invocation *)

Section Invocation.

Import Llm.

Variable zsh : string -> proc.


(** X13. When [subprocess.run] itself raises on the command, the command
    counts as failed with status 1, and the process ends with 1 whether
    the engine then answers or not. *)
Theorem unspawnable_command_exits_with_1 (s : session) (w : world) (what : string) :
  api_key s <> "" ->
  (2 <= List.length (argv s))%nat ->
  zsh (user_command s) = SpawnFailed what ->
  fst (program zsh s w) = 1%Z.
Proof.
  intros Hkey Hargv Hcmd.
  assert (Hreported : fst (execute_shell_command zsh (user_command s) w)
                      = Returned ("", what, 1%Z)).
  { unfold execute_shell_command. now rewrite Hcmd. }
  assert (Hfailed : 1%Z <> 0%Z) by discriminate.
  pose proof (main_after_failed_command zsh s w Hargv Hreported Hfailed) as Hmain.
  unfold program. destruct (String.eqb_spec (api_key s) ""); [contradiction |].
  destruct (main zsh s w) as [code w']. cbn [fst] in *. subst code.
  destruct (Spec.engine_answers zsh s (log_spawn (user_command s) w)); reflexivity.
Qed.




End Invocation.

(** ** The poll loop *)

Section PollLoop.

Import Llm.

Variable zsh : string -> proc.

(** Polls that neither end the loop nor ask for action are waited
    through, and nothing is done meanwhile. *)
Lemma monitor_loop_waits (pre : list (outcome run)) (rest : list (outcome run)) (w : world) :
  forallb Shape.waiting pre = true ->
  Polling.monitor_loop zsh (pre ++ rest) w = Polling.monitor_loop zsh rest w.
Proof.
  induction pre as [| poll pre IH]; intros Hwait; [reflexivity |].
  cbn [forallb] in Hwait. apply andb_prop in Hwait as [Hpoll Hpre].
  destruct poll as [r | e]; [| discriminate].
  cbn [Shape.waiting] in Hpoll.
  apply andb_prop in Hpoll as [Hpoll Hgave]. apply andb_prop in Hpoll as [Haction Hdone].
  apply negb_true_iff in Haction, Hdone, Hgave.
  cbn [app Polling.monitor_loop]. rewrite Haction, Hdone, Hgave. now apply IH.
Qed.

(** X15. [monitor_run] ends only on the statuses [completed], [failed],
    [cancelled] and [expired]: as long as the run is retrieved in any
    other status that asks for no action, [incomplete] or [cancelling]
    for instance, the loop goes on, does nothing and reads no reply. *)
Theorem other_statuses_are_polled_on
        (polls : list (outcome run)) (assistant_reply : outcome string) (w : world) :
  forallb Shape.waiting polls = true ->
  Polling.monitor_run zsh polls assistant_reply w = (Returned Polling.StillPolling, w).
Proof.
  intros Hwait. unfold Polling.monitor_run. run_py.
  pose proof (monitor_loop_waits polls [] w Hwait) as E.
  rewrite app_nil_r in E. rewrite E. reflexivity.
Qed.

(** X16. The loop stops on the first run that is [completed], [failed],
    [cancelled] or [expired], and later polls are not looked at. Only for
    a completed run is the reply read, and an exception there leaves
    [monitor_run]. *)
Theorem monitor_stops_at_first_terminal_status
        (pre post : list (outcome run)) (r : run) (assistant_reply : outcome string) (w : world) :
  forallb Shape.waiting pre = true ->
  Shape.terminal r = true ->
  Polling.monitor_run zsh (pre ++ Returned r :: post) assistant_reply w
  = if String.eqb (status r) "completed" then
      match assistant_reply with
      | Returned _ => (Returned (Polling.Ended r), w)
      | Raised e => (Raised e, w)
      end
    else (Returned (Polling.Ended r), w).
Proof.
  intros Hwait Hterminal. unfold Polling.monitor_run. run_py.
  rewrite (monitor_loop_waits pre (Returned r :: post) w Hwait).
  cbn [Polling.monitor_loop]. unfold Shape.terminal in Hterminal.
  destruct (String.eqb (status r) "requires_action") eqn:Haction.
  { apply String.eqb_eq in Haction. unfold Polling.gave_up in Hterminal.
    rewrite Haction in Hterminal. discriminate Hterminal. }
  destruct (String.eqb (status r) "completed") eqn:Hdone.
  - run_py. rewrite Hdone. destruct assistant_reply; reflexivity.
  - cbn [orb] in Hterminal. rewrite Hterminal. run_py. rewrite Hdone. reflexivity.
Qed.

End PollLoop.


Lemma unspawnable_command_exits_with_1_witness :
  fst (Llm.program (fun _ => Llm.SpawnFailed "No such file or directory: '/bin/zsh'")
                   Samples.answered (Llm.initial []))
  = 1%Z.
Proof.
  assert (Hkey : "sk-test" <> "") by discriminate.
  assert (Hargv : (2 <= 3)%nat) by lia.
  exact (unspawnable_command_exits_with_1
           (fun _ => Llm.SpawnFailed "No such file or directory: '/bin/zsh'")
           Samples.answered (Llm.initial []) Hkey Hargv eq_refl).
Defined.


Lemma other_statuses_are_polled_on_witness :
  Polling.monitor_run Samples.quiet_shell
                      (repeat (Returned (Shape.run_in "incomplete")) 5)
                      (Returned "cd /x") (Llm.initial [])
  = (Returned Polling.StillPolling, Llm.initial []).
Proof.
  exact (other_statuses_are_polled_on
           Samples.quiet_shell (repeat (Returned (Shape.run_in "incomplete")) 5)
           (Returned "cd /x") (Llm.initial []) eq_refl).
Defined.

Lemma monitor_stops_at_first_terminal_status_witness :
  Polling.monitor_run Samples.quiet_shell
                      [ Returned (Shape.run_in "queued"); Returned (Shape.run_in "in_progress");
                        Returned (Shape.run_in "expired"); Returned (Shape.run_in "completed") ]
                      (Returned "cd /x") (Llm.initial [])
  = (Returned (Polling.Ended (Shape.run_in "expired")), Llm.initial []).
Proof.
  exact (monitor_stops_at_first_terminal_status
           Samples.quiet_shell
           [Returned (Shape.run_in "queued"); Returned (Shape.run_in "in_progress")]
           [Returned (Shape.run_in "completed")]
           (Shape.run_in "expired") (Returned "cd /x") (Llm.initial []) eq_refl eq_refl).
Defined.

(** ** The one-shot writer *)

Section OneShot.

Import Llm.

Variable zsh : string -> proc.

Lemma rstrip_keeps_head (c : ascii) (s : string) :
  Writers.is_space c = false ->
  Writers.rstrip (String c s) = String c (Writers.rstrip s).
Proof.
  intros Hc. cbn [Writers.rstrip]. destruct (Writers.rstrip s); [now rewrite Hc | reflexivity].
Qed.

Lemma rstrip_idempotent (s : string) :
  Writers.rstrip (Writers.rstrip s) = Writers.rstrip s.
Proof.
  induction s as [| c s IH]; [reflexivity |].
  cbn [Writers.rstrip]. destruct (Writers.rstrip s) as [| k kept] eqn:E.
  - destruct (Writers.is_space c) eqn:Hc; [reflexivity |].
    cbn. now rewrite Hc.
  - assert (H : forall x, Writers.rstrip (String c x)
                          = match Writers.rstrip x with
                            | EmptyString =>
                                if Writers.is_space c then EmptyString else String c EmptyString
                            | String a b => String c (String a b)
                            end) by reflexivity.
    rewrite H, IH. reflexivity.
Qed.

Lemma lstrip_head (s : string) :
  Writers.lstrip s = ""
  \/ exists c rest, Writers.lstrip s = String c rest /\ Writers.is_space c = false.
Proof.
  induction s as [| c s IH]; [now left |].
  cbn. destruct (Writers.is_space c) eqn:Hc; [exact IH | right; eauto].
Qed.

(** [strip] leaves nothing to strip at either end, so stripping twice is
    stripping once. *)
Theorem strip_leaves_nothing_to_strip (s : string) :
  Writers.lstrip (Writers.strip s) = Writers.strip s
  /\ Writers.rstrip (Writers.strip s) = Writers.strip s
  /\ Writers.strip (Writers.strip s) = Writers.strip s.
Proof.
  assert (Hl : Writers.lstrip (Writers.strip s) = Writers.strip s).
  { unfold Writers.strip.
    destruct (lstrip_head s) as [E | (c & rest & E & Hc)]; rewrite E; [reflexivity |].
    rewrite (@rstrip_keeps_head c rest Hc). cbn. now rewrite Hc. }
  assert (Hr : Writers.rstrip (Writers.strip s) = Writers.strip s)
    by apply rstrip_idempotent.
  split; [exact Hl |]. split; [exact Hr |].
  unfold Writers.strip at 1. now rewrite Hl, Hr.
Qed.

Lemma pipe_text_app (front back : list frame) :
  Writers.pipe_text (front ++ back) = Writers.pipe_text front ++ Writers.pipe_text back.
Proof.
  induction front as [| f rest IH]; cbn; [reflexivity |].
  now rewrite IH, append_assoc.
Qed.

(** X17. On a FIFO that works, [send_suggestion] puts on the pipe the stripped
    suggestion, a newline, ['EOF'] and a newline: the very text a stream
    puts there that delivers the stripped suggestion in one delta and
    then completes its message. *)
Theorem send_suggestion_writes_what_a_stream_writes (text : string) (script : list bool) :
  Spec.all_work script = true ->
  Writers.pipe_text
    (frames (fifo_log (snd (Writers.send_suggestion text (initial script)))))
  = Writers.strip text ++ nl ++ "EOF" ++ nl
  /\ Writers.pipe_text
       (frames (fifo_log (snd (stream zsh
                                      [ OnTextDelta (Writers.strip text);
                                        OnEvent "thread.message.completed" [] [] ]
                                      (initial script)))))
     = Writers.strip text ++ nl ++ "EOF" ++ nl.
Proof.
  intros Hscript. split.
  - unfold Writers.send_suggestion.
    destruct (next_io_works (initial script) Hscript) as (Hok & Hio0 & _ & Hlog0 & _).
    destruct (next_io (initial script)) as [ok w1]. cbn [fst snd] in Hok, Hio0, Hlog0.
    subst ok.
    destruct (next_io_works (log_fifo FifoOpen w1) Hio0) as (Hok2 & _ & _ & Hlog2 & _).
    destruct (next_io (log_fifo FifoOpen w1)) as [ok2 w2]. cbn [fst snd] in Hok2, Hlog2.
    subst ok2. cbn [snd log_fifo deliver_frames fifo_log map]. rewrite Hlog2.
    cbn [log_fifo fifo_log]. rewrite Hlog0. cbn [initial fifo_log app].
    rewrite ?frames_app. cbn. rewrite ?append_empty, ?append_assoc. reflexivity.
  - destruct (stream_flat_from zsh
                [OnTextDelta (Writers.strip text); OnEvent "thread.message.completed" [] []]
                (initial script) eq_refl Hscript)
      as (w' & E & Hlog & _).
    rewrite E. cbn [snd]. rewrite Hlog. cbn. rewrite ?append_empty, ?append_assoc. reflexivity.
Qed.

End OneShot.

Lemma send_suggestion_writes_what_a_stream_writes_witness :
  Writers.pipe_text
    (Llm.frames
       (Llm.fifo_log (snd (Writers.send_suggestion ("  cd /existing_dir" ++ nl)
                                                   (Llm.initial [])))))
  = "cd /existing_dir" ++ nl ++ "EOF" ++ nl.
Proof.
  exact (proj1 (send_suggestion_writes_what_a_stream_writes
                  Samples.quiet_shell ("  cd /existing_dir" ++ nl) [] eq_refl)).
Defined.

(** ** The configuration *)

Section Configuration.

Lemma lookup_dict_set (key : string) (v : json) (fields : list (string * json)) :
  lookup key (Config.dict_set key v fields) = Some v.
Proof.
  induction fields as [| [k old] rest IH]; cbn.
  - now rewrite String.eqb_refl.
  - destruct (String.eqb key k) eqn:E; cbn; rewrite E; [reflexivity | exact IH].
Qed.

Lemma lookup_dict_set_other (key other : string) (v : json) (fields : list (string * json)) :
  other <> key ->
  lookup other (Config.dict_set key v fields) = lookup other fields.
Proof.
  intros Hother. induction fields as [| [k old] rest IH]; cbn.
  - destruct (String.eqb_spec other key); [contradiction | reflexivity].
  - destruct (String.eqb_spec key k) as [-> | Hk]; cbn.
    + destruct (String.eqb_spec other k); [contradiction | reflexivity].
    + destruct (String.eqb other k); [reflexivity | exact IH].
Qed.

(** X18. The assistant is created once: on a disk that can be written, when
    the configuration is a dict without a usable [assistant_id] and the
    engine gives an id, the id is returned and saved beside the other
    keys, and the next invocation returns that id from the file without
    asking the engine, whatever the engine would answer, and leaves the
    file as it is. *)
Theorem assistant_id_is_created_once
        (d : Config.disk) (fields : list (string * json)) (new_id : string) :
  Config.writable d = true ->
  Config.load_config d = JObj fields ->
  match lookup "assistant_id" fields with Some v => truthy v | None => false end = false ->
  new_id <> "" ->
  let d' := snd (Config.assistant_for (Returned new_id) d) in
  fst (Config.assistant_for (Returned new_id) d) = Config.Value (JStr new_id)
  /\ (forall again : outcome string,
         Config.assistant_for again d' = (Config.Value (JStr new_id), d'))
  /\ (exists saved,
         Config.load_config d' = JObj saved
         /\ lookup "assistant_id" saved = Some (JStr new_id)
         /\ forall key, key <> "assistant_id" -> lookup key saved = lookup key fields).
Proof.
  intros Hwritable Hloaded Hmissing Hid. cbn zeta.
  unfold Config.assistant_for, Config.create_assistant_if_not_exists.
  rewrite Hloaded.
  assert (Hfalsy : truthy (match lookup "assistant_id" fields with
                           | Some v => v
                           | None => JNull
                           end) = false).
  { destruct (lookup "assistant_id" fields); [exact Hmissing | reflexivity]. }
  rewrite Hfalsy. cbn [fst snd]. unfold Config.save_config. rewrite Hwritable.
  split; [reflexivity |]. split.
  - intros again. cbn [Config.load_config Config.config_file].
    rewrite lookup_dict_set. cbn [truthy].
    destruct (String.eqb_spec new_id ""); [contradiction | reflexivity].
  - eexists. split; [reflexivity |]. split; [apply lookup_dict_set |].
    intros key Hkey. now apply lookup_dict_set_other.
Qed.

End Configuration.

Lemma assistant_id_is_created_once_witness :
  fst (Config.assistant_for
         (Returned "asst_1")
         {| Config.config_file := Config.Holds (JObj [("thread_id", JStr "thread_9")]);
            Config.writable := true |})
  = Config.Value (JStr "asst_1")
  /\ Config.assistant_for
       (Raised (ApiError "Connection error."))
       {| Config.config_file :=
            Config.Holds (JObj [("thread_id", JStr "thread_9");
                                ("assistant_id", JStr "asst_1")]);
          Config.writable := true |}
     = (Config.Value (JStr "asst_1"),
        {| Config.config_file :=
             Config.Holds (JObj [("thread_id", JStr "thread_9");
                                 ("assistant_id", JStr "asst_1")]);
           Config.writable := true |}).
Proof.
  assert (Hid : "asst_1" <> "") by discriminate.
  pose proof (assistant_id_is_created_once
                {| Config.config_file := Config.Holds (JObj [("thread_id", JStr "thread_9")]);
                   Config.writable := true |}
                (fields := [("thread_id", JStr "thread_9")])
                eq_refl eq_refl eq_refl Hid) as H.
  split.
  - exact (proj1 H).
  - exact (proj1 (proj2 H) (Raised (ApiError "Connection error."))).
Defined.

(** ** The tools of ollama_debugger.py *)

Section OllamaTools.

Import Ollama.

Variable env : environment.

(** X19. Tool calls under names that are not in [AVAILABLE_FUNCTIONS] run
    nothing at all: each is answered in the conversation with the text
    that its function is not allowed, and the world is as it was. *)
Theorem unregistered_tools_run_nothing
        (calls : list tool_request) (messages : list entry) (w : world) :
  Forall (fun t => lookup (function_name t) AVAILABLE_FUNCTIONS = None) calls ->
  process_tool_calls env calls messages w
  = (Returned (messages
               ++ map (fun t => tool_message ("Function '" ++ function_name t
                                              ++ "' is not allowed."))
                      calls)%list,
     w).
Proof.
  intros Hall. revert messages. induction Hall as [| t rest Ht Hrest IH]; intros messages.
  - cbn. now rewrite app_nil_r.
  - cbn [process_tool_calls map]. unfold function_response at 1. rewrite Ht. run_py.
    rewrite IH, <- app_assoc. reflexivity.
Qed.

(** X20. A call of [list_directory] without [path], or of
    [display_file_contents] without [file_path], runs nothing: the
    [KeyError] is caught and the text names the function and the key. *)
Theorem missing_argument_is_reported_not_run (t : tool_request) (w : world) :
  (function_name t = "list_directory" ->
   lookup "path" (function_arguments t) = None ->
   function_response env t w
   = (Returned "Error executing function 'list_directory': 'path'", w))
  /\ (function_name t = "display_file_contents" ->
      lookup "file_path" (function_arguments t) = None ->
      function_response env t w
      = (Returned "Error executing function 'display_file_contents': 'file_path'", w)).
Proof.
  split; intros Hname Hmissing; unfold function_response; rewrite Hname;
    cbn [lookup AVAILABLE_FUNCTIONS String.eqb Ascii.eqb Bool.eqb];
    unfold subscript; rewrite Hmissing; reflexivity.
Qed.

(** X21. With a string for a path and strings for options, [list_directory]
    calls [subprocess.run] exactly once, with the argument vector
    ['ls'], the path, the options, and without a shell; on Windows with
    ['dir'] in the place of ['ls'] and with [shell=True]. What comes
    back is the output, or a text that tells the failure. *)
Theorem listing_gives_subprocess_run_a_vector (path : string) (options : list string) (w : world) :
  let windows := String.eqb (platform_system env) "Windows" in
  let argv := ((if windows then "dir" else "ls") :: path :: options)%list in
  list_directory env (JStr path) (JArr (map JStr options)) w
  = (Returned (Shape.listing_text env argv windows), log_command argv windows w).
Proof.
  cbn zeta. unfold list_directory, Shape.listing_text, run_logged, list_add. run_py.
  destruct (String.eqb (platform_system env) "Windows");
    cbn [app Str.all_str]; rewrite all_str_map_JStr;
    match goal with
    | |- context [subprocess_run env ?argv ?shell] => destruct (subprocess_run env argv shell)
    end; reflexivity.
Qed.

(** X22. A path that is not a string never reaches a process: the line written
    to the log joins the vector, that raises, and [list_directory] answers
    with the text of the [TypeError]. *)
Theorem non_string_path_is_never_listed (path : json) (options : list json) (w : world) :
  Spec.is_string path = false ->
  list_directory env path (JArr options) w
  = (Returned ("Unexpected error: sequence item 1: expected str instance, "
               ++ Str.type_name path ++ " found"),
     w).
Proof.
  intros Hpath. unfold list_directory, run_logged, list_add. run_py.
  destruct (String.eqb (platform_system env) "Windows");
    cbn [app Str.all_str]; destruct path; try discriminate Hpath; reflexivity.
Qed.




End OllamaTools.

Lemma unregistered_tools_run_nothing_witness :
  Ollama.process_tool_calls
    Samples.ollama_environment
    [ {| Ollama.function_name := "delete_all_files"; Ollama.function_arguments := [] |} ]
    [] Ollama.initial
  = (Returned [Ollama.tool_message "Function 'delete_all_files' is not allowed."],
     Ollama.initial).
Proof.
  assert (Hall : Forall (fun t => lookup (Ollama.function_name t) Ollama.AVAILABLE_FUNCTIONS
                                  = None)
                        [ {| Ollama.function_name := "delete_all_files";
                             Ollama.function_arguments := [] |} ])
    by (repeat constructor).
  exact (unregistered_tools_run_nothing Samples.ollama_environment [] Ollama.initial Hall).
Defined.

Lemma missing_argument_is_reported_not_run_witness :
  Ollama.function_response
    Samples.ollama_environment
    {| Ollama.function_name := "list_directory";
       Ollama.function_arguments := [("options", JArr [JStr "-la"])] |}
    Ollama.initial
  = (Returned "Error executing function 'list_directory': 'path'", Ollama.initial)
  /\ Ollama.function_response
       Samples.ollama_environment
       {| Ollama.function_name := "display_file_contents"; Ollama.function_arguments := [] |}
       Ollama.initial
     = (Returned "Error executing function 'display_file_contents': 'file_path'",
        Ollama.initial).
Proof.
  split.
  - exact (proj1 (missing_argument_is_reported_not_run
                    Samples.ollama_environment
                    {| Ollama.function_name := "list_directory";
                       Ollama.function_arguments := [("options", JArr [JStr "-la"])] |}
                    Ollama.initial) eq_refl eq_refl).
  - exact (proj2 (missing_argument_is_reported_not_run
                    Samples.ollama_environment
                    {| Ollama.function_name := "display_file_contents";
                       Ollama.function_arguments := [] |}
                    Ollama.initial) eq_refl eq_refl).
Defined.

Lemma non_string_path_is_never_listed_witness :
  Ollama.list_directory Samples.ollama_environment (JNum 5) (JArr [JStr "-la"]) Ollama.initial
  = (Returned "Unexpected error: sequence item 1: expected str instance, int found",
     Ollama.initial).
Proof.
  exact (non_string_path_is_never_listed
           Samples.ollama_environment (JNum 5) [JStr "-la"] Ollama.initial eq_refl).
Defined.


(** ** Two more readings of the dispatchers *)

Section Readings.

Variable zsh : string -> Llm.proc.

Lemma list_longer_by_one (A : Type) (l : list A) (x : A) : l <> (l ++ [x])%list.
Proof.
  intros H. apply (f_equal (@List.length A)) in H.
  rewrite length_app in H. cbn in H. lia.
Qed.

(** X6. The command line of [display_file_contents] tells the path: two
    calls with strings for [file_path] leave the same world behind only
    when the two strings are the same. *)
Theorem cat_command_determines_path (p q : string) (w : Llm.world) :
  snd (Llm.handle_function_call
         zsh (Samples.call "display_file_contents" [("file_path", JStr p)]) w)
  = snd (Llm.handle_function_call
           zsh (Samples.call "display_file_contents" [("file_path", JStr q)]) w) ->
  p = q.
Proof.
  assert (Hcat : forall s,
             snd (Llm.handle_function_call
                    zsh (Samples.call "display_file_contents" [("file_path", JStr s)]) w)
             = if String.eqb s "" then w
               else Llm.log_spawn ("cat " ++ Shlex.quote_str s) w).
  { intros s. unfold Llm.handle_function_call, Samples.call. run_py.
    cbn [Llm.name Llm.arguments].
    change (Llm.allowed (Some "display_file_contents")) with true.
    cbn [negb Llm.json_loads Llm.is_name String.eqb Ascii.eqb Bool.eqb
              Llm.dict_get lookup truthy].
    destruct (String.eqb s "") eqn:Hs; cbn [negb]; [reflexivity |].
    rewrite quote_string.
    destruct (run_command_returns zsh ("cat " ++ Shlex.quote_str s) w) as (o & e & c & E).
    now rewrite E. }
  rewrite !Hcat.
  destruct (String.eqb_spec p "") as [Hp | Hp], (String.eqb_spec q "") as [Hq | Hq].
  - congruence.
  - intros H. apply (f_equal Llm.spawned) in H. cbn in H.
    now apply list_longer_by_one in H.
  - intros H. apply (f_equal Llm.spawned) in H. cbn in H. symmetry in H.
    now apply list_longer_by_one in H.
  - intros H. apply (f_equal Llm.spawned) in H. cbn in H.
    apply app_inj_tail in H as [_ H]. injection H as H.
    now apply quote_is_injective.
Qed.

Variable env : Ollama.environment.

(** X25. In ollama_debugger.py a tool call never raises, whatever its name and
    arguments: every failure ends as the text of the tool message, and no
    request to the model is made meanwhile. *)
Theorem tool_calls_never_raise (t : Ollama.tool_request) (w : Ollama.world) :
  returns (fst (Ollama.function_response env t w)) = true
  /\ Ollama.requests (snd (Ollama.function_response env t w)) = Ollama.requests w.
Proof.
  destruct (function_response_returns env t w) as (r & w' & E & Hreq).
  rewrite E. auto.
Qed.

End Readings.

Lemma cat_command_determines_path_witness : "/etc/hosts" = "/etc/hosts".
Proof.
  exact (cat_command_determines_path Samples.quiet_shell "/etc/hosts" "/etc/hosts"
                                     (Llm.initial []) eq_refl).
Defined.

(** ** The poll variant of the batch, and the command line of [main] *)

Section PollBatch.

Import Llm.

Variable zsh : string -> proc.


(** X27. [main] joins its arguments with blanks, so the command it runs does
    not tell where one argument ended and the next began: two invocations
    whose arguments differ only in that run the same command. *)
Theorem command_forgets_argument_boundaries
        (s s' : session) (a b : string) (rest : list string) :
  tl (argv s) = a :: b :: rest ->
  tl (argv s') = (a ++ " " ++ b) :: rest ->
  user_command s = user_command s'.
Proof.
  intros Hs Hs'. unfold user_command. rewrite Hs, Hs'.
  destruct rest as [| c rest]; cbn; [reflexivity |].
  now rewrite !append_assoc.
Qed.

End PollBatch.


Lemma command_forgets_argument_boundaries_witness :
  Llm.user_command Samples.answered
  = Llm.user_command
      {| Llm.api_key := "sk-test";
         Llm.argv := ["llm_debugger.py"; "gti status"];
         Llm.config_assistant_id := None;
         Llm.assistants_create := Returned "asst_1";
         Llm.getcwd := Returned "/home/user";
         Llm.getoutput := Samples.no_output;
         Llm.os_release_exists := true;
         Llm.first_word := Returned "gti";
         Llm.which := false;
         Llm.threads_create := Returned "thread_1";
         Llm.run_stream := [] |}.
Proof.
  exact (command_forgets_argument_boundaries
           Samples.answered
           {| Llm.api_key := "sk-test";
              Llm.argv := ["llm_debugger.py"; "gti status"];
              Llm.config_assistant_id := None;
              Llm.assistants_create := Returned "asst_1";
              Llm.getcwd := Returned "/home/user";
              Llm.getoutput := Samples.no_output;
              Llm.os_release_exists := true;
              Llm.first_word := Returned "gti";
              Llm.which := false;
              Llm.threads_create := Returned "thread_1";
              Llm.run_stream := [] |}
           (rest := []) eq_refl eq_refl).
Defined.
